(** * capsAI: the hybrid detection engine and the risk aggregation of [api.py]

    A shallow embedding of [hybrid_detect] and of the computational part of
    the [/analyze] route, followed by the properties of the written
    specification that concern them.

    Conventions of the embedding.
    - A Python [str] is a Rocq [string]; each [ascii] stands for the code
      point of the same number (U+0000 .. U+00FF).
    - A Python [float] is an exact rational ([Q]): rounding errors, infinities
      and NaN are outside the embedding. The item weights are the integer
      weights of the questionnaire ([Z]).
    - An exception is a value of [exn]; a computation that may raise has type
      [outcome A].
    - The pretrained topic model, the sentence encoder and the cosine
      similarity are external: they are fields of the environment [Env]. *)

From Stdlib Require Import String Ascii List ZArith QArith Qround Lia Bool.
From Stdlib Require Import DecimalString.
Import ListNotations.

Open Scope string_scope.
Open Scope Z_scope.

(* ------------------------------------------------------------------ *)
(** ** Exceptions *)

Inductive exn : Type :=
| IndexError
| ValueError
| RuntimeError.

Inductive outcome (A : Type) : Type :=
| Ok (a : A)
| Raise (e : exn).

Arguments Ok {A} a.
Arguments Raise {A} e.

Definition bind {A B : Type} (m : outcome A) (k : A -> outcome B) : outcome B :=
  match m with
  | Ok a => k a
  | Raise e => Raise e
  end.

Notation "x <- m ;; k" := (bind m (fun x => k))
  (at level 61, m at next level, right associativity).
Notation "' p <- m ;; k" := (bind m (fun x => let 'p := x in k))
  (at level 61, p pattern, m at next level, right associativity).

(* ------------------------------------------------------------------ *)
(** ** Python strings *)

Module PyStr.

(** [str.isspace] on one code point below U+0100. *)
Definition is_space (c : ascii) : bool :=
  let n := N_of_ascii c in
  ((9 <=? n) && (n <=? 13) || (28 <=? n) && (n <=? 32)
   || (n =? 133) || (n =? 160))%N.

(** [str.lower] on one code point below U+0100. *)
Definition lower_char (c : ascii) : ascii :=
  let n := N_of_ascii c in
  if ((65 <=? n) && (n <=? 90)
      || (192 <=? n) && (n <=? 222) && negb (n =? 215))%N
  then ascii_of_N (n + 32) else c.

Fixpoint lower (s : string) : string :=
  match s with
  | EmptyString => EmptyString
  | String c r => String (lower_char c) (lower r)
  end.

Fixpoint lstrip (s : string) : string :=
  match s with
  | EmptyString => EmptyString
  | String c r => if is_space c then lstrip r else s
  end.

Fixpoint rstrip (s : string) : string :=
  match s with
  | EmptyString => EmptyString
  | String c r =>
      match rstrip r with
      | EmptyString => if is_space c then EmptyString else String c EmptyString
      | r' => String c r'
      end
  end.

(** [s.strip()] *)
Definition strip (s : string) : string := rstrip (lstrip s).

(** [len(s)] *)
Definition len (s : string) : Z := Z.of_nat (String.length s).

(** [key in s] *)
Fixpoint contains (key s : string) : bool :=
  String.prefix key s
  || match s with
     | EmptyString => false
     | String _ r => contains key r
     end.

(** [sep.join(parts)] *)
Definition join (sep : string) (parts : list string) : string :=
  String.concat sep parts.

(** [str(n)] for an integer. *)
Definition of_int (n : Z) : string := NilZero.string_of_int (Z.to_int n).

(** The number of code points of [s] that are not white space. *)
Fixpoint count_non_space (s : string) : Z :=
  match s with
  | EmptyString => 0
  | String c r => (if is_space c then 0 else 1) + count_non_space r
  end.

(** [s.endswith(suffix)] *)
Definition endswith (s suffix : string) : bool :=
  let n := String.length s in
  let k := String.length suffix in
  (k <=? n)%nat && String.eqb (String.substring (n - k) k s) suffix.

End PyStr.

(* ------------------------------------------------------------------ *)
(** ** Python numbers *)

Module PyNum.

Definition Qlt_bool (x y : Q) : bool := negb (Qle_bool y x).

(** The builtin [max] over a sequence: the first greatest element;
    [ValueError] on an empty one. *)
Definition max_from (x : Q) (xs : list Q) : Q :=
  fold_left (fun m y => if Qlt_bool m y then y else m) xs x.

Definition py_max (xs : list Q) : outcome Q :=
  match xs with
  | [] => Raise ValueError
  | x :: r => Ok (max_from x r)
  end.

(** [t.max()] of a tensor; an empty tensor has no maximum. *)
Definition tensor_max (xs : list Q) : outcome Q :=
  match xs with
  | [] => Raise RuntimeError
  | x :: r => Ok (max_from x r)
  end.

(** [sum(ws)]: starts from 0 and adds from the left. *)
Definition py_sum (ws : list Z) : Z := fold_left Z.add ws 0.

(** Nearest integer, ties to the even one. *)
Definition round_half_even (q : Q) : Z :=
  let f := Qfloor q in
  let twice := (2 * (q - inject_Z f))%Q in
  if Qlt_bool twice 1 then f
  else if Qlt_bool 1 twice then f + 1
  else if Z.even f then f else f + 1.

(** [str(round(x, 1))]: the tenths of [x] rounded to the nearest, ties to
    even, printed in positional notation with one decimal (what Python
    prints below 1e16); the sign is that of [x], as for the float [-0.0]. *)
Definition str_round1 (x : Q) : string :=
  let t := Z.abs (round_half_even (x * 10)) in
  ((if Qlt_bool x 0 then "-" else EmptyString)
   ++ PyStr.of_int (t / 10) ++ "." ++ PyStr.of_int (t mod 10))%string.

End PyNum.

(* ------------------------------------------------------------------ *)
(** ** Dictionaries in insertion order *)

Module PyDict.
Section Dict.
Context {K V : Type} (eqb : K -> K -> bool).

(** [d.get(k)] *)
Fixpoint get (d : list (K * V)) (k : K) : option V :=
  match d with
  | [] => None
  | (k', v) :: rest => if eqb k' k then Some v else get rest k
  end.

(** [d[k] = v]: an existing key keeps its place, a new one goes last. *)
Fixpoint set (d : list (K * V)) (k : K) (v : V) : list (K * V) :=
  match d with
  | [] => [(k, v)]
  | (k', v') :: rest =>
      if eqb k' k then (k', v) :: rest else (k', v') :: set rest k v
  end.

Definition keys (d : list (K * V)) : list K := map fst d.
End Dict.
End PyDict.

(** [xs[0]] *)
Definition item0 {A : Type} (xs : list A) : outcome A :=
  match xs with
  | [] => Raise IndexError
  | x :: _ => Ok x
  end.

(* ------------------------------------------------------------------ *)
(** ** Configuration *)

Definition PhysicalAbuse : string := "Physical Abuse".
Definition ControlManipulation : string := "Control & Manipulation".
Definition VerbalEmotionalAbuse : string := "Verbal & Emotional Abuse".
Definition NeglectEmotionalWithdrawal : string := "Neglect & Emotional Withdrawal".
Definition HealthyLowRisk : string := "Healthy/Low Risk".
Definition NeutralUnclassified : string := "Neutral / Unclassified".

Definition KEYWORD_TO_CATEGORY : list (string * string) :=
  [ ("hit", PhysicalAbuse); ("slap", PhysicalAbuse); ("punch", PhysicalAbuse);
    ("kick", PhysicalAbuse); ("weapon", PhysicalAbuse); ("kill", PhysicalAbuse);
    ("threat", ControlManipulation) ].

Definition TOPIC_MAPPING : list (Z * string) :=
  [ (2, ControlManipulation); (3, ControlManipulation);
    (4, NeglectEmotionalWithdrawal); (6, ControlManipulation);
    (8, VerbalEmotionalAbuse); (1, NeglectEmotionalWithdrawal);
    (5, VerbalEmotionalAbuse) ].

Definition ANCHOR_SENTENCES : list (string * list string) :=
  [ (ControlManipulation,
      ["He controls who I see."; "He demands passwords."; "He tracks my location."]);
    (VerbalEmotionalAbuse,
      ["He calls me names."; "He yells and screams."; "He blames me for everything."]);
    (PhysicalAbuse,
      ["He hurts me physically."; "He pushes and shoves."; "He throws things."]);
    (NeglectEmotionalWithdrawal,
      ["He ignores me for days."; "He isolates me from family."]) ].

Definition CATEGORIES_ADVICE : list (string * string) :=
  [ (ControlManipulation, "Document incidents. Do not share your location if unsafe.");
    (VerbalEmotionalAbuse,
      "Prioritize your mental health. Do not engage in escalating arguments.");
    (NeglectEmotionalWithdrawal, "Seek counseling or support from trusted friends.");
    (PhysicalAbuse, "Go to a safe place immediately. Call 911.");
    (HealthyLowRisk, "Maintain open communication.");
    (NeutralUnclassified, "No specific pattern detected.") ].

(* ------------------------------------------------------------------ *)
(** ** The external models *)

(** One row of the probabilities of the topic model: a number per document,
    or a vector of numbers per document. *)
Inductive ProbRow : Type :=
| Scalar (p : Q)
| Vector (ps : list Q).

(** [topic_model.transform(docs)] gives [(topics, probs)]; [probs] may be
    [None]. *)
Record TopicModel : Type := {
  transform : list string -> list Z * option (list ProbRow)
}.

(** [embedding_model.encode(text)] gives a vector. *)
Record EmbeddingModel : Type := {
  encode : string -> list Q
}.

(** The process-wide state that [hybrid_detect] reads: each model is [None]
    when its loading failed at start-up; [cos_sim] is the similarity routine
    of the embedding library. *)
Record Env : Type := {
  topic_model : option TopicModel;
  embedding_model : option EmbeddingModel;
  cos_sim : list Q -> list Q -> Q
}.

(** [ANCHOR_EMBEDDINGS], built when the encoder is loaded. *)
Definition ANCHOR_EMBEDDINGS (em : EmbeddingModel) : list (string * list (list Q)) :=
  map (fun '(cat, sentences) => (cat, map (encode em) sentences)) ANCHOR_SENTENCES.

(* ------------------------------------------------------------------ *)
(** ** The detection engine *)

(** [(category, method, confidence)] *)
Definition Result : Type := (string * string * Q)%type.

(** The layers of the engine, recorded as they are entered. *)
Inductive Layer : Type :=
| KeywordLayer
| TopicLayer
| SemanticLayer.

(** Layer 1: the loop over [KEYWORD_TO_CATEGORY.items()]. *)
Fixpoint keyword_scan (table : list (string * string)) (text_lower : string)
  : option string :=
  match table with
  | [] => None
  | (key, val) :: rest =>
      if PyStr.contains key text_lower then Some val
      else keyword_scan rest text_lower
  end.

(** The confidence of layer 2, from the shape of [probs]. *)
Definition topic_confidence (probs : option (list ProbRow)) : outcome Q :=
  match probs with
  | Some rows =>
      row <- item0 rows ;;
      match row with
      | Vector ps => PyNum.py_max ps
      | Scalar p => Ok p
      end
  | None => Ok (1 # 2)%Q
  end.

(** Layer 2: [None] when the topic is not in [TOPIC_MAPPING]. *)
Definition topic_layer (tm : TopicModel) (text : string) : outcome (option Result) :=
  let '(topics, probs) := transform tm [text] in
  t0 <- item0 topics ;;
  match PyDict.get Z.eqb TOPIC_MAPPING t0 with
  | Some cat =>
      conf <- topic_confidence probs ;;
      Ok (Some (cat, "AI Cluster " ++ PyStr.of_int t0, conf))
  | None => Ok None
  end.

(** The loop of layer 3 over [ANCHOR_EMBEDDINGS.items()], from the pair
    [(best_cat, high_score)]. *)
Fixpoint semantic_scan (sim : list Q -> Q) (anchors : list (string * list (list Q)))
    (best : string * Q) : outcome (string * Q) :=
  match anchors with
  | [] => Ok best
  | (cat, embs) :: rest =>
      score <- PyNum.tensor_max (map sim embs) ;;
      semantic_scan sim rest
        (if PyNum.Qlt_bool (snd best) score then (cat, score) else best)
  end.

(** Layer 3: [None] when the best score is not above 0.35. *)
Definition semantic_layer (env : Env) (em : EmbeddingModel) (text : string)
  : outcome (option Result) :=
  let user_embedding := encode em text in
  '(best_cat, high_score) <-
     semantic_scan (cos_sim env user_embedding) (ANCHOR_EMBEDDINGS em)
       (NeutralUnclassified, 0%Q) ;;
  if PyNum.Qlt_bool (35 # 100) high_score
  then Ok (Some (best_cat, "AI Semantic Similarity", high_score))
  else Ok None.

(** A layer behind a model that may be absent. *)
Definition guarded {M : Type} (model : option M) (l : Layer)
    (run : M -> outcome (option Result)) : list Layer * outcome (option Result) :=
  match model with
  | Some m => ([l], run m)
  | None => ([], Ok None)
  end.

(** [hybrid_detect(text)], with the layers it entered. *)
Definition hybrid_detect_run (env : Env) (text : string)
  : list Layer * outcome Result :=
  if String.eqb text EmptyString || (PyStr.len (PyStr.strip text) <? 5)
  then ([], Ok (HealthyLowRisk, "Insufficient Data", 0%Q))
  else
    let text_lower := PyStr.lower text in
    match keyword_scan KEYWORD_TO_CATEGORY text_lower with
    | Some val => ([KeywordLayer], Ok (val, "Manual Keyword Match", 1%Q))
    | None =>
        let '(seen2, r2) :=
          guarded (topic_model env) TopicLayer (fun tm => topic_layer tm text) in
        match r2 with
        | Raise e => (KeywordLayer :: seen2, Raise e)
        | Ok (Some r) => (KeywordLayer :: seen2, Ok r)
        | Ok None =>
            let '(seen3, r3) :=
              guarded (embedding_model env) SemanticLayer
                (fun em => semantic_layer env em text) in
            ((KeywordLayer :: seen2 ++ seen3)%list,
             match r3 with
             | Raise e => Raise e
             | Ok (Some r) => Ok r
             | Ok None => Ok (HealthyLowRisk, "System Default", 0%Q)
             end)
        end
    end.

Definition hybrid_detect (env : Env) (text : string) : outcome Result :=
  snd (hybrid_detect_run env text).

Definition consulted (env : Env) (text : string) : list Layer :=
  fst (hybrid_detect_run env text).

(* ------------------------------------------------------------------ *)
(** ** The [/analyze] route *)

(** One answer of the questionnaire: [item['text']] and [item['weight']]. *)
Record AnswerItem : Type := {
  text : string;
  weight : Z
}.

(** [grouped_answers]: section name to the answers of the section, in the
    order of the request. *)
Definition GroupedAnswers : Type := list (string * list AnswerItem).

(** One entry of [breakdown]. *)
Record SectionOutcome : Type := {
  section_category : string;
  section_risk : string;
  section_color : string;
  section_confidence : string
}.

(** [response_data["general"]] *)
Record OverallOutcome : Type := {
  category : string;
  risk : string;
  color : string;
  advice : string;
  method : string;
  confidence : string
}.

(** [response_data] *)
Record Response : Type := {
  general : OverallOutcome;
  breakdown : list (string * SectionOutcome)
}.

(** The variables that the loop over the sections updates. *)
Record Acc : Type := {
  acc_breakdown : list (string * SectionOutcome);
  all_sentences : list string;
  total_risk_score : Z
}.

Definition acc0 : Acc :=
  {| acc_breakdown := []; all_sentences := []; total_risk_score := 0 |}.

(** [" ".join([item['text'] for item in items])] *)
Definition section_text_of (items : list AnswerItem) : string :=
  PyStr.join " " (map text items).

(** [sum(item['weight'] for item in items)] *)
Definition section_score_of (items : list AnswerItem) : Z :=
  PyNum.py_sum (map weight items).

(** The risk logic of one section: [(risk, color)]. *)
Definition section_risk_of (cat : string) (section_score : Z) : string * string :=
  if String.eqb cat "Physical Abuse" then ("Severe", "red")
  else if 6 <=? section_score then ("High", "orange")
  else if 2 <=? section_score then ("Moderate", "yellow")
  else ("Low", "green").

(** The risk logic of the whole request: [(gen_risk, gen_color)]. *)
Definition general_risk_of (gen_cat : string) (total : Z) : string * string :=
  if String.eqb gen_cat "Physical Abuse" then ("Severe", "red")
  else if 10 <=? total then ("High", "orange")
  else if 3 <=? total then ("Moderate", "yellow")
  else ("Low", "green").

(** The entry of [breakdown] for a section. *)
Definition section_entry (cat : string) (section_score : Z) (conf : Q) : SectionOutcome :=
  let '(risk, color) := section_risk_of cat section_score in
  {| section_category := cat;
     section_risk := risk;
     section_color := color;
     section_confidence := PyNum.str_round1 (conf * 100) ++ "%" |}.

(** One turn of the loop over [grouped_answers.items()]. *)
Definition analyze_section (env : Env) (acc : Acc)
    (section : string * list AnswerItem) : outcome Acc :=
  let '(section_name, items) := section in
  match items with
  | [] => Ok acc
  | _ :: _ =>
      let section_text := section_text_of items in
      let section_score := section_score_of items in
      let sentences := (all_sentences acc ++ [section_text])%list in
      '(cat, _, conf) <- hybrid_detect env section_text ;;
      Ok {| acc_breakdown :=
              PyDict.set String.eqb (acc_breakdown acc) section_name
                (section_entry cat section_score conf);
            all_sentences := sentences;
            total_risk_score := total_risk_score acc + section_score |}
  end.

Fixpoint analyze_sections (env : Env) (acc : Acc) (sections : GroupedAnswers)
  : outcome Acc :=
  match sections with
  | [] => Ok acc
  | section :: rest =>
      acc' <- analyze_section env acc section ;;
      analyze_sections env acc' rest
  end.

(** [CATEGORIES_ADVICE.get(gen_cat, "No advice available.")] *)
Definition advice_for (gen_cat : string) : string :=
  match PyDict.get String.eqb CATEGORIES_ADVICE gen_cat with
  | Some a => a
  | None => "No advice available."
  end.

(** The general analysis, after the loop. *)
Definition general_analysis (env : Env) (acc : Acc) : outcome Response :=
  let full_text := PyStr.join " " (all_sentences acc) in
  '(gen_cat, gen_method, gen_conf) <- hybrid_detect env full_text ;;
  let '(gen_risk, gen_color) := general_risk_of gen_cat (total_risk_score acc) in
  Ok {| general :=
          {| category := gen_cat;
             risk := gen_risk;
             color := gen_color;
             advice := advice_for gen_cat;
             method := gen_method;
             confidence := PyNum.str_round1 (gen_conf * 100) |};
        breakdown := acc_breakdown acc |}.

(** [analyze()] on the [grouped_answers] of the request: [Ok] is the
    ["success"] answer with its [result], [Raise] the ["error"] answer.
    Saving the record does not change the answer and is left out. *)
Definition analyze (env : Env) (grouped_answers : GroupedAnswers) : outcome Response :=
  acc <- analyze_sections env acc0 grouped_answers ;;
  general_analysis env acc.

(** The sections that the loop does not skip. *)
Definition answered (grouped_answers : GroupedAnswers) : GroupedAnswers :=
  filter (fun s => match snd s with [] => false | _ :: _ => true end) grouped_answers.

(* ------------------------------------------------------------------ *)
(** ** Saving the assessment *)

(** The values of the [INSERT] into [assessments]. *)
Record AssessmentValues : Type := {
  saved_timestamp : string;
  saved_risk_level : string;
  saved_main_category : string;
  saved_confidence : string;
  saved_full_report : string
}.

(** The general analysis together with the values to save; [now] is the
    formatted time of the clock and [dumps] is [json.dumps]. *)
Definition general_analysis_saved (env : Env) (now : string)
    (dumps : Response -> string) (acc : Acc) : outcome (Response * AssessmentValues) :=
  let full_text := PyStr.join " " (all_sentences acc) in
  '(gen_cat, gen_method, gen_conf) <- hybrid_detect env full_text ;;
  let '(gen_risk, gen_color) := general_risk_of gen_cat (total_risk_score acc) in
  let response_data :=
    {| general :=
         {| category := gen_cat;
            risk := gen_risk;
            color := gen_color;
            advice := advice_for gen_cat;
            method := gen_method;
            confidence := PyNum.str_round1 (gen_conf * 100) |};
       breakdown := acc_breakdown acc |} in
  Ok (response_data,
      {| saved_timestamp := now;
         saved_risk_level := gen_risk;
         saved_main_category := gen_cat;
         saved_confidence := PyNum.str_round1 (gen_conf * 100) ++ "%";
         saved_full_report := dumps response_data |}).

(** [analyze()] with its store: [insert] stands for the connection, the
    [INSERT] and the commit, and may raise; its exception is printed and
    dropped. The answer comes with the store as it is left. *)
Definition analyze_route {Store : Type} (env : Env) (now : string)
    (dumps : Response -> string)
    (insert : AssessmentValues -> Store -> outcome Store)
    (store : Store) (grouped_answers : GroupedAnswers) : outcome Response * Store :=
  match (acc <- analyze_sections env acc0 grouped_answers ;;
         general_analysis_saved env now dumps acc) with
  | Ok (response_data, val) =>
      (Ok response_data,
       match insert val store with
       | Ok store' => store'
       | Raise _ => store
       end)
  | Raise e => (Raise e, store)
  end.

(** A store that keeps the rows, the last one first, and one that is out of
    reach. *)
Definition insert_row (val : AssessmentValues) (rows : list AssessmentValues)
  : outcome (list AssessmentValues) := Ok (val :: rows).

Definition insert_fails (val : AssessmentValues) (rows : list AssessmentValues)
  : outcome (list AssessmentValues) := Raise RuntimeError.

(* ------------------------------------------------------------------ *)
(** ** Stand-ins for the external models, to run the engine *)

(** No model was loaded. *)
Definition no_models : Env :=
  {| topic_model := None; embedding_model := None; cos_sim := fun _ _ => 0%Q |}.

(** A topic model that puts every document in topic [t] with rows [probs]. *)
Definition fixed_topic (t : Z) (probs : option (list ProbRow)) : TopicModel :=
  {| transform := fun docs => (map (fun _ => t) docs, probs) |}.

(** An encoder with one coordinate: the length of the text over [d]. *)
Definition length_encoder (d : positive) : EmbeddingModel :=
  {| encode := fun s => [Qmake (PyStr.len s) d] |}.

(** The product of the first coordinates. *)
Definition first_product (u a : list Q) : Q :=
  match u, a with
  | x :: _, y :: _ => (x * y)%Q
  | _, _ => 0%Q
  end.

Definition topic_only (t : Z) (probs : option (list ProbRow)) : Env :=
  {| topic_model := Some (fixed_topic t probs);
     embedding_model := None;
     cos_sim := fun _ _ => 0%Q |}.

Definition encoder_only (d : positive) : Env :=
  {| topic_model := None;
     embedding_model := Some (length_encoder d);
     cos_sim := first_product |}.

(** Requests to run [analyze] on. *)
Definition item (t : string) (w : Z) : AnswerItem := {| text := t; weight := w |}.

Definition request_hit : GroupedAnswers :=
  [ ("Section A", [item "he hit me" 7]) ].

Definition request_two_sections : GroupedAnswers :=
  [ ("S1", [item "normal day" 1; item "went to work" 2]);
    ("S2", [item "quiet evening" 3]) ].

Definition request_with_empty : GroupedAnswers :=
  [ ("S1", [item "normal day" 3]); ("S2", []); ("S3", [item "quiet evening" 1]) ].

(* ------------------------------------------------------------------ *)
(** ** Predicates used in the statements *)

(** The text is not stopped by the first test of [hybrid_detect]. *)
Definition passes_guard (text : string) : Prop :=
  text <> EmptyString /\ 5 <= PyStr.len (PyStr.strip text).

(** [key] is the first key of [table], in its order, that [s] contains. *)
Definition first_trigger (table : list (string * string)) (key val s : string) : Prop :=
  exists before after,
    table = (before ++ (key, val) :: after)%list
    /\ PyStr.contains key s = true
    /\ forall k v, In (k, v) before -> PyStr.contains k s = false.

(** The topic layer gives no result: no model, or a topic outside
    [TOPIC_MAPPING]. *)
Definition topic_abstains (env : Env) (text : string) : Prop :=
  topic_model env = None
  \/ exists tm t topics probs,
       topic_model env = Some tm
       /\ transform tm [text] = (t :: topics, probs)
       /\ PyDict.get Z.eqb TOPIC_MAPPING t = None.

(** Every cosine similarity that layer 3 computes for [text]. *)
Definition all_similarities (env : Env) (em : EmbeddingModel) (text : string) : list Q :=
  flat_map (fun entry => map (cos_sim env (encode em text)) (snd entry))
    (ANCHOR_EMBEDDINGS em).

(** The semantic layer gives no result: no encoder, or no similarity above
    0.35. *)
Definition semantic_abstains (env : Env) (text : string) : Prop :=
  embedding_model env = None
  \/ exists em,
       embedding_model env = Some em
       /\ forall s, In s (all_similarities env em text) -> (s <= 35 # 100)%Q.

Definition in_unit (q : Q) : Prop := (0 <= q /\ q <= 1)%Q.

Definition row_in_unit (row : ProbRow) : Prop :=
  match row with
  | Scalar p => in_unit p
  | Vector ps => Forall in_unit ps
  end.

(** The topic model gives probabilities, and the similarity routine gives
    nothing above 1. *)
Definition models_in_range (env : Env) : Prop :=
  (forall tm docs rows,
      topic_model env = Some tm ->
      snd (transform tm docs) = Some rows -> Forall row_in_unit rows)
  /\ (forall u a, (cos_sim env u a <= 1)%Q).

(** [m] is a greatest element of [xs]. *)
Definition is_max (m : Q) (xs : list Q) : Prop :=
  In m xs /\ forall x, In x xs -> (x <= m)%Q.

(** The layer [l] is entered only behind a loaded model. *)
Definition seen_if {M : Type} (model : option M) (l : Layer) : list Layer :=
  match model with
  | Some _ => [l]
  | None => []
  end.

(** The answer of the topic model for [text] has a first topic and, when it
    has probabilities, a first row that is not an empty vector. *)
Definition well_shaped (env : Env) (text : string) : Prop :=
  forall tm, topic_model env = Some tm ->
    exists t topics probs,
      transform tm [text] = (t :: topics, probs)
      /\ (probs = None
          \/ exists row rows, probs = Some (row :: rows) /\ row <> Vector []).

(** The sum of a list of integers. *)
Definition total_of (ws : list Z) : Z := fold_right Z.add 0 ws.

(* ------------------------------------------------------------------ *)
(** ** Data for the further properties *)

(** The categories that a result can carry. *)
Definition result_categories : list string :=
  [ PhysicalAbuse; ControlManipulation; VerbalEmotionalAbuse;
    NeglectEmotionalWithdrawal; HealthyLowRisk ].

(** The methods that a result can carry. *)
Definition result_methods : list string :=
  [ "Insufficient Data"; "Manual Keyword Match";
    "AI Cluster 1"; "AI Cluster 2"; "AI Cluster 3"; "AI Cluster 4";
    "AI Cluster 5"; "AI Cluster 6"; "AI Cluster 8";
    "AI Semantic Similarity"; "System Default" ].

(** The keys of [KEYWORD_TO_CATEGORY] that stand for Physical Abuse. *)
Definition physical_triggers : list string :=
  [ "hit"; "slap"; "punch"; "kick"; "weapon"; "kill" ].

(** The risk levels with their colours, from the mildest. *)
Definition risk_colors : list (string * string) :=
  [ ("Low", "green"); ("Moderate", "yellow"); ("High", "orange"); ("Severe", "red") ].

(** The place of a risk level in [risk_colors]. *)
Definition risk_rank (risk : string) : Z :=
  if String.eqb risk "Severe" then 3
  else if String.eqb risk "High" then 2
  else if String.eqb risk "Moderate" then 1
  else 0.

(** The run of the engine, by the place where it ends. *)
Inductive path (env : Env) (text : string) : list Layer -> outcome Result -> Prop :=
| path_guard :
    text = EmptyString \/ PyStr.len (PyStr.strip text) < 5 ->
    path env text [] (Ok (HealthyLowRisk, "Insufficient Data", 0%Q))
| path_keyword val :
    passes_guard text ->
    keyword_scan KEYWORD_TO_CATEGORY (PyStr.lower text) = Some val ->
    path env text [KeywordLayer] (Ok (val, "Manual Keyword Match", 1%Q))
| path_topic tm r :
    passes_guard text ->
    keyword_scan KEYWORD_TO_CATEGORY (PyStr.lower text) = None ->
    topic_model env = Some tm ->
    topic_layer tm text = Ok (Some r) ->
    path env text [KeywordLayer; TopicLayer] (Ok r)
| path_topic_raise tm e :
    passes_guard text ->
    keyword_scan KEYWORD_TO_CATEGORY (PyStr.lower text) = None ->
    topic_model env = Some tm ->
    topic_layer tm text = Raise e ->
    path env text [KeywordLayer; TopicLayer] (Raise e)
| path_semantic em r :
    passes_guard text ->
    keyword_scan KEYWORD_TO_CATEGORY (PyStr.lower text) = None ->
    (forall tm, topic_model env = Some tm -> topic_layer tm text = Ok None) ->
    embedding_model env = Some em ->
    semantic_layer env em text = Ok (Some r) ->
    path env text
      (KeywordLayer :: seen_if (topic_model env) TopicLayer ++ [SemanticLayer])%list (Ok r)
| path_default :
    passes_guard text ->
    keyword_scan KEYWORD_TO_CATEGORY (PyStr.lower text) = None ->
    (forall tm, topic_model env = Some tm -> topic_layer tm text = Ok None) ->
    (forall em, embedding_model env = Some em -> semantic_layer env em text = Ok None) ->
    path env text
      (KeywordLayer :: seen_if (topic_model env) TopicLayer
         ++ seen_if (embedding_model env) SemanticLayer)%list
      (Ok (HealthyLowRisk, "System Default", 0%Q)).

(** No code point of [k] is the space that joins the answers. *)
Definition spaceless (k : string) : Prop :=
  forall a b, k <> a ++ String " " b.

(** Every section of the request is without answers. *)
Definition nothing_answered (grouped_answers : GroupedAnswers) : Prop :=
  forall name items, In (name, items) grouped_answers -> items = [].

(* ================================================================== *)
(** * Properties *)

(** ** Strings *)

Lemma prefix_app (k s : string) :
  String.prefix k s = true <-> exists b, s = k ++ b.
Proof.
  revert s; induction k as [|c k IH]; intros s.
  - split; [intros _; now exists s | intros _; now destruct s].
  - destruct s as [|d s]; simpl.
    + split; [discriminate | intros [b Hb]; discriminate].
    + destruct (Ascii.ascii_dec c d) as [->|Hcd].
      * rewrite IH. split; intros [b Hb]; exists b.
        -- now rewrite Hb.
        -- now inversion Hb.
      * split; [discriminate | intros [b Hb]; inversion Hb; congruence].
Qed.

(** [contains] is the containment test of Python: [key] occurs in [s]. *)
Lemma contains_occurs (key s : string) :
  PyStr.contains key s = true <-> exists a b, s = a ++ key ++ b.
Proof.
  induction s as [|c s IH]; cbn [PyStr.contains].
  - rewrite orb_false_r, prefix_app. split.
    + intros [b Hb]. now exists EmptyString, b.
    + intros [a [b Hab]]. destruct a; [now exists b | discriminate].
  - rewrite orb_true_iff, prefix_app, IH. split.
    + intros [[b Hb] | [a [b Hab]]].
      * now exists EmptyString, b.
      * exists (String c a), b. simpl. now rewrite Hab.
    + intros [a [b Hab]]. destruct a as [|d a]; simpl in Hab.
      * left. now exists b.
      * right. exists a, b. now inversion Hab.
Qed.

Lemma lstrip_blank (s : string) :
  PyStr.count_non_space s = 0 -> PyStr.lstrip s = EmptyString.
Proof.
  induction s as [|c s IH]; simpl; [reflexivity|].
  assert (0 <= PyStr.count_non_space s).
  { clear. induction s as [|d s IH]; simpl; [lia|]. destruct (PyStr.is_space d); lia. }
  destruct (PyStr.is_space c); [intros; apply IH; lia | lia].
Qed.

(** A text of white space only strips to the empty text. *)
Lemma strip_blank (s : string) :
  PyStr.count_non_space s = 0 -> PyStr.strip s = EmptyString.
Proof.
  intros H. unfold PyStr.strip. now rewrite lstrip_blank.
Qed.

Lemma count_non_space_bounds (s : string) :
  0 <= PyStr.count_non_space s <= PyStr.len s.
Proof.
  unfold PyStr.len. induction s as [|c s IH]; cbn [PyStr.count_non_space String.length].
  - lia.
  - destruct (PyStr.is_space c); lia.
Qed.

Lemma lstrip_keeps_non_space (s : string) :
  PyStr.count_non_space (PyStr.lstrip s) = PyStr.count_non_space s.
Proof.
  induction s as [|c s IH]; [reflexivity|].
  cbn [PyStr.lstrip]. destruct (PyStr.is_space c) eqn:E; [|reflexivity].
  cbn [PyStr.count_non_space]. rewrite E, IH. lia.
Qed.

Lemma rstrip_keeps_non_space (s : string) :
  PyStr.count_non_space (PyStr.rstrip s) = PyStr.count_non_space s.
Proof.
  induction s as [|c s IH]; [reflexivity|].
  cbn [PyStr.rstrip PyStr.count_non_space].
  destruct (PyStr.rstrip s) as [|d r] eqn:R.
  - rewrite <- IH. cbn [PyStr.count_non_space].
    destruct (PyStr.is_space c) eqn:E; cbn [PyStr.count_non_space]; rewrite ?E; lia.
  - rewrite <- IH. reflexivity.
Qed.

(** Stripping removes white space only: a text that [hybrid_detect] stops
    for its length has fewer than 5 other characters as well. *)
Lemma strip_keeps_non_space (s : string) :
  PyStr.count_non_space s <= PyStr.len (PyStr.strip s).
Proof.
  unfold PyStr.strip.
  rewrite <- (lstrip_keeps_non_space s), <- (rstrip_keeps_non_space (PyStr.lstrip s)).
  apply count_non_space_bounds.
Qed.

Lemma endswith_percent (s : string) : PyStr.endswith (s ++ "%") "%" = true.
Proof.
  unfold PyStr.endswith.
  assert (L : String.length (s ++ "%") = S (String.length s)).
  { induction s as [|c s IH]; simpl; [reflexivity | now rewrite IH]. }
  rewrite L. simpl (String.length "%").
  replace (S (String.length s) - 1)%nat with (String.length s) by lia.
  replace ((1 <=? S (String.length s))%nat) with true
    by (symmetry; apply Nat.leb_le; lia).
  simpl andb. apply String.eqb_eq. clear L.
  induction s as [|c s IH]; simpl; [reflexivity | exact IH].
Qed.

(** ** The first test and the keyword layer *)

Lemma guard_true (text : string) :
  text = EmptyString \/ PyStr.len (PyStr.strip text) < 5 ->
  String.eqb text EmptyString || (PyStr.len (PyStr.strip text) <? 5) = true.
Proof.
  intros [-> | H]; [reflexivity|].
  apply orb_true_iff; right. now apply Z.ltb_lt.
Qed.

Lemma guard_false (text : string) :
  passes_guard text ->
  String.eqb text EmptyString || (PyStr.len (PyStr.strip text) <? 5) = false.
Proof.
  intros [Hne Hlen]. apply orb_false_iff; split.
  - now apply String.eqb_neq.
  - apply Z.ltb_ge; lia.
Qed.

Lemma keyword_scan_first (table : list (string * string)) (key val s : string) :
  first_trigger table key val s -> keyword_scan table s = Some val.
Proof.
  intros (before & after & -> & Hin & Hout).
  induction before as [|[k v] before IH]; simpl.
  - now rewrite Hin.
  - rewrite (Hout k v) by now left.
    apply IH. intros k' v' H. apply (Hout k' v'). now right.
Qed.

Lemma keyword_scan_none (table : list (string * string)) (s : string) :
  keyword_scan table s = None <->
  forall k v, In (k, v) table -> PyStr.contains k s = false.
Proof.
  induction table as [|[k v] table IH]; simpl.
  - split; [intros _ k v [] | reflexivity].
  - destruct (PyStr.contains k s) eqn:E.
    + split; [discriminate|]. intros H. specialize (H k v (or_introl eq_refl)). congruence.
    + rewrite IH. split.
      * intros H k' v' [Heq | Hin]; [inversion Heq; subst; exact E | eauto].
      * intros H k' v' Hin. apply (H k' v'). now right.
Qed.

(** C4, as the code has it: a text that is empty, of white space only, or
    shorter than 5 characters once its leading and trailing white space is
    removed, is answered [(Healthy/Low Risk, Insufficient Data, 0.0)], whatever the
    models are, and no layer is entered. *)
Theorem C4_insufficient_data (env : Env) (text : string) :
  text = EmptyString \/ PyStr.count_non_space text = 0 \/ PyStr.len (PyStr.strip text) < 5 ->
  hybrid_detect env text = Ok ("Healthy/Low Risk", "Insufficient Data", 0%Q)
  /\ consulted env text = [].
Proof.
  intros H.
  assert (G : text = EmptyString \/ PyStr.len (PyStr.strip text) < 5).
  { destruct H as [H | [H | H]]; auto.
    right. rewrite (strip_blank _ H). reflexivity. }
  unfold hybrid_detect, consulted, hybrid_detect_run.
  rewrite (guard_true _ G). split; reflexivity.
Qed.

Lemma C4_insufficient_data_witness :
  hybrid_detect (encoder_only 10) "  hit " = Ok ("Healthy/Low Risk", "Insufficient Data", 0%Q)
  /\ consulted (encoder_only 10) "  hit " = [].
Proof.
  apply (C4_insufficient_data (encoder_only 10) "  hit ").
  right; right. vm_compute. reflexivity.
Defined.

(** C4, as the specification words it, fails: ["a hit"] has 4 characters that are
    not white space, and is classified by the keyword layer. *)
Lemma C4_counterexample :
  PyStr.count_non_space "a hit" < 5
  /\ hybrid_detect no_models "a hit" <> Ok ("Healthy/Low Risk", "Insufficient Data", 0%Q)
  /\ consulted no_models "a hit" <> [].
Proof.
  split; [vm_compute; reflexivity|].
  split; vm_compute; discriminate.
Qed.

(** C3: a text that passes the first test and whose lower-case form contains
    a trigger is given the category of the first such trigger of
    [KEYWORD_TO_CATEGORY], with confidence 1.0 and method
    [Manual Keyword Match], for every state of the models, which are not
    consulted. *)
Theorem C3_keyword_match (env : Env) (text key val : string) :
  passes_guard text ->
  first_trigger KEYWORD_TO_CATEGORY key val (PyStr.lower text) ->
  hybrid_detect env text = Ok (val, "Manual Keyword Match", 1%Q)
  /\ consulted env text = [KeywordLayer].
Proof.
  intros G F.
  unfold hybrid_detect, consulted, hybrid_detect_run.
  rewrite (guard_false _ G), (keyword_scan_first _ _ _ _ F).
  split; reflexivity.
Qed.

Lemma C3_keyword_match_witness :
  hybrid_detect (topic_only 2 None) "He will KILL me"
    = Ok ("Physical Abuse", "Manual Keyword Match", 1%Q)
  /\ consulted (topic_only 2 None) "He will KILL me" = [KeywordLayer].
Proof.
  apply (C3_keyword_match (topic_only 2 None) "He will KILL me" "kill" "Physical Abuse").
  - split; [discriminate | vm_compute; discriminate].
  - exists [ ("hit", PhysicalAbuse); ("slap", PhysicalAbuse); ("punch", PhysicalAbuse);
             ("kick", PhysicalAbuse); ("weapon", PhysicalAbuse) ],
           [ ("threat", ControlManipulation) ].
    split; [reflexivity|]. split; [vm_compute; reflexivity|].
    intros k v H. simpl in H.
    repeat (destruct H as [H | H]; [inversion H; subst; vm_compute; reflexivity|]).
    destruct H.
Defined.

(** ** Numbers *)

Lemma Qlt_bool_iff (x y : Q) : PyNum.Qlt_bool x y = true <-> (x < y)%Q.
Proof.
  unfold PyNum.Qlt_bool. rewrite negb_true_iff. split.
  - intros H. apply Qnot_le_lt. intros L.
    apply Qle_bool_iff in L. congruence.
  - intros H. destruct (Qle_bool y x) eqn:E; [|reflexivity].
    apply Qle_bool_iff in E. exfalso. exact (Qlt_not_le _ _ H E).
Qed.

Lemma Qlt_bool_false (x y : Q) : PyNum.Qlt_bool x y = false <-> (y <= x)%Q.
Proof.
  unfold PyNum.Qlt_bool. rewrite negb_false_iff. apply Qle_bool_iff.
Qed.

(** The running maximum is an element, and no element is above it. *)
Lemma max_from_is_max (x : Q) (xs : list Q) : is_max (PyNum.max_from x xs) (x :: xs).
Proof.
  revert x; induction xs as [|y xs IH]; intros x.
  - split; [now left|]. intros z [<- | []]. apply Qle_refl.
  - unfold PyNum.max_from; simpl fold_left.
    fold (PyNum.max_from (if PyNum.Qlt_bool x y then y else x) xs).
    destruct (IH (if PyNum.Qlt_bool x y then y else x)) as [Hin Hmax].
    destruct (PyNum.Qlt_bool x y) eqn:E.
    + apply Qlt_bool_iff in E. split.
      * right. exact Hin.
      * intros z [<- | Hz]; [|now apply Hmax].
        apply Qle_trans with y; [now apply Qlt_le_weak | apply Hmax; now left].
    + apply Qlt_bool_false in E. split.
      * destruct Hin as [<- | Hin]; [now left | right; now right].
      * intros z [<- | [<- | Hz]].
        -- apply Hmax; now left.
        -- apply Qle_trans with x; [exact E | apply Hmax; now left].
        -- apply Hmax; now right.
Qed.

Lemma py_max_is_max (ps : list Q) :
  ps <> [] -> exists m, PyNum.py_max ps = Ok m /\ is_max m ps.
Proof.
  destruct ps as [|p ps]; [congruence|]. intros _.
  exists (PyNum.max_from p ps). split; [reflexivity | apply max_from_is_max].
Qed.

(** ** The topic layer *)

Lemma hybrid_detect_topic (env : Env) (tm : TopicModel) (text : string) :
  passes_guard text ->
  keyword_scan KEYWORD_TO_CATEGORY (PyStr.lower text) = None ->
  topic_model env = Some tm ->
  forall r, topic_layer tm text = Ok (Some r) ->
  hybrid_detect env text = Ok r /\ consulted env text = [KeywordLayer; TopicLayer].
Proof.
  intros G K T r L.
  unfold hybrid_detect, consulted, hybrid_detect_run.
  rewrite (guard_false _ G), K, T. simpl. rewrite L. split; reflexivity.
Qed.

Lemma topic_layer_mapped (tm : TopicModel) (text : string)
    (t : Z) (topics : list Z) (probs : option (list ProbRow)) (cat : string) :
  transform tm [text] = (t :: topics, probs) ->
  PyDict.get Z.eqb TOPIC_MAPPING t = Some cat ->
  topic_layer tm text =
    (conf <- topic_confidence probs ;;
     Ok (Some (cat, "AI Cluster " ++ PyStr.of_int t, conf))).
Proof.
  intros Ht Hm. unfold topic_layer. rewrite Ht.
  cbn [item0 bind]. now rewrite Hm.
Qed.

(** C5: when the text reaches the topic layer, the model is loaded and the
    topic it gives is in [TOPIC_MAPPING], the answer has the mapped category,
    the method [AI Cluster {id}] and, as confidence, the greatest element of
    the first row of probabilities when the row is a vector, the row itself
    when it is a number, and 0.5 when there are no probabilities. *)
Theorem C5_topic_confidence (env : Env) (tm : TopicModel) (text : string)
    (t : Z) (topics : list Z) (probs : option (list ProbRow)) (cat : string) :
  passes_guard text ->
  keyword_scan KEYWORD_TO_CATEGORY (PyStr.lower text) = None ->
  topic_model env = Some tm ->
  transform tm [text] = (t :: topics, probs) ->
  PyDict.get Z.eqb TOPIC_MAPPING t = Some cat ->
  (forall ps rows, probs = Some (Vector ps :: rows) -> ps <> [] ->
     exists conf,
       hybrid_detect env text = Ok (cat, "AI Cluster " ++ PyStr.of_int t, conf)
       /\ is_max conf ps)
  /\ (forall p rows, probs = Some (Scalar p :: rows) ->
        hybrid_detect env text = Ok (cat, "AI Cluster " ++ PyStr.of_int t, p))
  /\ (probs = None ->
        hybrid_detect env text = Ok (cat, "AI Cluster " ++ PyStr.of_int t, 1 # 2)).
Proof.
  intros G K T Ht Hm.
  pose proof (topic_layer_mapped tm text t topics probs cat Ht Hm) as L.
  split; [|split].
  - intros ps rows -> Hne.
    destruct (py_max_is_max ps Hne) as (m & Hm1 & Hm2).
    exists m. split; [|exact Hm2].
    apply (hybrid_detect_topic env tm text G K T).
    rewrite L. simpl. now rewrite Hm1.
  - intros p rows ->.
    apply (hybrid_detect_topic env tm text G K T). now rewrite L.
  - intros ->.
    apply (hybrid_detect_topic env tm text G K T). now rewrite L.
Qed.

Lemma C5_topic_confidence_witness :
  exists conf,
    hybrid_detect (topic_only 8 (Some [Vector [1 # 4; 3 # 5; 1 # 10]])) "a normal day"
      = Ok ("Verbal & Emotional Abuse", "AI Cluster " ++ PyStr.of_int 8, conf)
    /\ is_max conf [1 # 4; 3 # 5; 1 # 10].
Proof.
  refine (proj1 (C5_topic_confidence
                   (topic_only 8 (Some [Vector [1 # 4; 3 # 5; 1 # 10]]))
                   (fixed_topic 8 (Some [Vector [1 # 4; 3 # 5; 1 # 10]]))
                   "a normal day" 8 [] (Some [Vector [1 # 4; 3 # 5; 1 # 10]])
                   "Verbal & Emotional Abuse" _ _ _ _ _)
            [1 # 4; 3 # 5; 1 # 10] [] eq_refl _).
  - split; [discriminate | vm_compute; discriminate].
  - vm_compute. reflexivity.
  - reflexivity.
  - reflexivity.
  - reflexivity.
  - discriminate.
Defined.

(** Runs of the three shapes of the probabilities. *)
Example topic_vector_run :
  hybrid_detect (topic_only 8 (Some [Vector [1 # 4; 3 # 5; 1 # 10]])) "a normal day"
  = Ok ("Verbal & Emotional Abuse", "AI Cluster 8", 3 # 5).
Proof. vm_compute. reflexivity. Qed.

Example topic_scalar_run :
  hybrid_detect (topic_only 4 (Some [Scalar (9 # 10)])) "a normal day"
  = Ok ("Neglect & Emotional Withdrawal", "AI Cluster 4", 9 # 10).
Proof. vm_compute. reflexivity. Qed.

Example topic_none_run :
  hybrid_detect (topic_only 2 None) "a normal day"
  = Ok ("Control & Manipulation", "AI Cluster 2", 1 # 2).
Proof. vm_compute. reflexivity. Qed.

(** The builtin [max] has no answer on an empty vector: the exception leaves
    [hybrid_detect]. *)
Example topic_empty_vector_run :
  hybrid_detect (topic_only 2 (Some [Vector []])) "a normal day" = Raise ValueError.
Proof. vm_compute. reflexivity. Qed.

(** ** The semantic layer *)

Lemma anchors_nonempty (em : EmbeddingModel) :
  Forall (fun entry => snd entry <> []) (ANCHOR_EMBEDDINGS em).
Proof.
  unfold ANCHOR_EMBEDDINGS, ANCHOR_SENTENCES. simpl.
  repeat constructor; discriminate.
Qed.

Lemma tensor_max_is_max (xs : list Q) :
  xs <> [] -> exists m, PyNum.tensor_max xs = Ok m /\ is_max m xs.
Proof.
  destruct xs as [|x xs]; [congruence|]. intros _.
  exists (PyNum.max_from x xs). split; [reflexivity | apply max_from_is_max].
Qed.

(** The loop ends with a score that no similarity exceeds; the pair is the
    initial one, or a category together with one of its own similarities,
    above the initial score. *)
Lemma semantic_scan_best (sim : list Q -> Q)
    (anchors : list (string * list (list Q))) (best : string * Q) :
  Forall (fun entry => snd entry <> []) anchors ->
  exists best',
    semantic_scan sim anchors best = Ok best'
    /\ (snd best <= snd best')%Q
    /\ (forall s, In s (flat_map (fun entry => map sim (snd entry)) anchors) ->
          (s <= snd best')%Q)
    /\ (best' = best
        \/ (snd best < snd best')%Q
           /\ exists embs, In (fst best', embs) anchors
                           /\ In (snd best') (map sim embs)).
Proof.
  intros Hne. revert best.
  induction Hne as [|[cat embs] rest Hembs Hrest IH]; intros best.
  - exists best. split; [reflexivity|]. split; [apply Qle_refl|].
    split; [intros s []|now left].
  - simpl in Hembs.
    destruct (tensor_max_is_max (map sim embs)) as (score & Hscore & Hin & Hmax).
    { destruct embs; [congruence | discriminate]. }
    cbn [semantic_scan]. rewrite Hscore. cbn [bind].
    destruct (IH (if PyNum.Qlt_bool (snd best) score then (cat, score) else best))
      as (best' & Hrun & Hle & Hall & Hfrom).
    exists best'. split; [exact Hrun|].
    destruct (PyNum.Qlt_bool (snd best) score) eqn:E.
    + apply Qlt_bool_iff in E. cbn [snd fst] in *.
      split; [apply Qle_trans with score; [now apply Qlt_le_weak | exact Hle]|].
      split.
      * intros s Hs. cbn [flat_map snd] in Hs. apply in_app_or in Hs.
        destruct Hs as [Hs | Hs]; [|now apply Hall].
        apply Qle_trans with score; [now apply Hmax | exact Hle].
      * right. destruct Hfrom as [-> | (Hlt & embs' & Hin' & Hs')].
        -- cbn [snd fst]. split; [exact E|]. exists embs. split; [now left | exact Hin].
        -- split; [apply Qlt_trans with score; assumption|].
           exists embs'. split; [now right | exact Hs'].
    + apply Qlt_bool_false in E.
      split; [exact Hle|]. split.
      * intros s Hs. cbn [flat_map snd] in Hs. apply in_app_or in Hs.
        destruct Hs as [Hs | Hs]; [|now apply Hall].
        apply Qle_trans with score; [now apply Hmax|].
        apply Qle_trans with (snd best); assumption.
      * destruct Hfrom as [-> | (Hlt & embs' & Hin' & Hs')]; [now left|].
        right. split; [exact Hlt|]. exists embs'. split; [now right | exact Hs'].
Qed.

Lemma similarity_of_anchor (env : Env) (em : EmbeddingModel) (text : string)
    (cat : string) (embs : list (list Q)) (s : Q) :
  In (cat, embs) (ANCHOR_EMBEDDINGS em) ->
  In s (map (cos_sim env (encode em text)) embs) ->
  In s (all_similarities env em text).
Proof.
  intros Hc Hs. unfold all_similarities. apply in_flat_map.
  exists (cat, embs). split; assumption.
Qed.

(** A similarity above 0.35: the layer answers with the greatest similarity
    and a category that has it. *)
Lemma semantic_layer_confident (env : Env) (em : EmbeddingModel) (text : string) :
  (exists s, In s (all_similarities env em text) /\ (35 # 100 < s)%Q) ->
  exists best score,
    semantic_layer env em text = Ok (Some (best, "AI Semantic Similarity", score))
    /\ is_max score (all_similarities env em text)
    /\ exists embs, In (best, embs) (ANCHOR_EMBEDDINGS em)
                    /\ In score (map (cos_sim env (encode em text)) embs).
Proof.
  intros (s & Hs & Hgt).
  destruct (semantic_scan_best (cos_sim env (encode em text)) (ANCHOR_EMBEDDINGS em)
              (NeutralUnclassified, 0%Q) (anchors_nonempty em))
    as ([best score] & Hrun & _ & Hall & Hfrom).
  cbn [fst snd] in *.
  assert (Hhigh : (35 # 100 < score)%Q).
  { apply Qlt_le_trans with s; [exact Hgt | now apply Hall]. }
  destruct Hfrom as [Heq | (_ & embs & Hin & Hsc)].
  { inversion Heq; subst. exfalso. revert Hhigh. vm_compute. discriminate. }
  exists best, score. split; [|split].
  - unfold semantic_layer. rewrite Hrun. cbn [bind].
    apply Qlt_bool_iff in Hhigh. now rewrite Hhigh.
  - split; [now apply (similarity_of_anchor env em text best embs)| exact Hall].
  - exists embs. split; assumption.
Qed.

(** No similarity above 0.35: the layer has no answer. *)
Lemma semantic_layer_abstains (env : Env) (em : EmbeddingModel) (text : string) :
  (forall s, In s (all_similarities env em text) -> (s <= 35 # 100)%Q) ->
  semantic_layer env em text = Ok None.
Proof.
  intros Hlow.
  destruct (semantic_scan_best (cos_sim env (encode em text)) (ANCHOR_EMBEDDINGS em)
              (NeutralUnclassified, 0%Q) (anchors_nonempty em))
    as ([best score] & Hrun & _ & _ & Hfrom).
  cbn [fst snd] in *.
  unfold semantic_layer. rewrite Hrun. cbn [bind].
  assert (Hle : (score <= 35 # 100)%Q).
  { destruct Hfrom as [Heq | (_ & embs & Hin & Hsc)].
    - inversion Heq; subst. vm_compute. discriminate.
    - apply Hlow. now apply (similarity_of_anchor env em text best embs). }
  apply Qlt_bool_false in Hle. now rewrite Hle.
Qed.

(** ** The engine after the keyword layer *)

Lemma topic_abstains_layer (env : Env) (text : string) :
  topic_abstains env text ->
  guarded (topic_model env) TopicLayer (fun tm => topic_layer tm text)
  = (seen_if (topic_model env) TopicLayer, Ok None).
Proof.
  intros [Hnone | (tm & t & topics & probs & Htm & Ht & Hm)].
  - now rewrite Hnone.
  - rewrite Htm. unfold guarded, seen_if, topic_layer.
    rewrite Ht. cbn [item0 bind]. now rewrite Hm.
Qed.

Lemma hybrid_detect_run_semantic (env : Env) (text : string) :
  passes_guard text ->
  keyword_scan KEYWORD_TO_CATEGORY (PyStr.lower text) = None ->
  topic_abstains env text ->
  hybrid_detect_run env text =
  ((KeywordLayer :: seen_if (topic_model env) TopicLayer
      ++ seen_if (embedding_model env) SemanticLayer)%list,
   match embedding_model env with
   | Some em =>
       match semantic_layer env em text with
       | Raise e => Raise e
       | Ok (Some r) => Ok r
       | Ok None => Ok (HealthyLowRisk, "System Default", 0%Q)
       end
   | None => Ok (HealthyLowRisk, "System Default", 0%Q)
   end).
Proof.
  intros G K T. unfold hybrid_detect_run.
  rewrite (guard_false _ G), K, (topic_abstains_layer _ _ T).
  destruct (embedding_model env); reflexivity.
Qed.

(** C6, as the code has it: when the text reaches the semantic layer and the
    encoder is loaded, a similarity above 0.35 gives the answer
    [(best, AI Semantic Similarity, score)], where [score] is the greatest of
    all the similarities and [best] a category one of whose anchors has it;
    with no similarity above 0.35 the layer gives nothing and the engine
    answers [(Healthy/Low Risk, System Default, 0.0)]. *)
Theorem C6_semantic_similarity (env : Env) (em : EmbeddingModel) (text : string) :
  passes_guard text ->
  keyword_scan KEYWORD_TO_CATEGORY (PyStr.lower text) = None ->
  topic_abstains env text ->
  embedding_model env = Some em ->
  ((exists s, In s (all_similarities env em text) /\ (35 # 100 < s)%Q) ->
   exists best score,
     hybrid_detect env text = Ok (best, "AI Semantic Similarity", score)
     /\ is_max score (all_similarities env em text)
     /\ exists embs, In (best, embs) (ANCHOR_EMBEDDINGS em)
                     /\ In score (map (cos_sim env (encode em text)) embs))
  /\ ((forall s, In s (all_similarities env em text) -> (s <= 35 # 100)%Q) ->
      semantic_layer env em text = Ok None
      /\ hybrid_detect env text = Ok ("Healthy/Low Risk", "System Default", 0%Q)).
Proof.
  intros G K T E.
  pose proof (hybrid_detect_run_semantic env text G K T) as R.
  rewrite E in R. unfold hybrid_detect. rewrite R. cbn [snd].
  split.
  - intros H.
    destruct (semantic_layer_confident env em text H) as (best & score & L & M & A).
    exists best, score. rewrite L. repeat split; try apply M. exact A.
  - intros H. rewrite (semantic_layer_abstains env em text H). split; reflexivity.
Qed.

Lemma C6_semantic_similarity_witness :
  exists best score,
    hybrid_detect (encoder_only 10) "a normal day"
      = Ok (best, "AI Semantic Similarity", score)
    /\ is_max score (all_similarities (encoder_only 10) (length_encoder 10) "a normal day")
    /\ exists embs, In (best, embs) (ANCHOR_EMBEDDINGS (length_encoder 10))
                    /\ In score (map (cos_sim (encoder_only 10)
                                        (encode (length_encoder 10) "a normal day")) embs).
Proof.
  refine (proj1 (C6_semantic_similarity (encoder_only 10) (length_encoder 10)
                   "a normal day" _ _ _ _) _).
  - split; [discriminate | vm_compute; discriminate].
  - vm_compute. reflexivity.
  - left. reflexivity.
  - reflexivity.
  - exists ((12 # 10) * (22 # 10))%Q. split; [left; reflexivity | vm_compute; reflexivity].
Defined.

(** C6, as the specification words it, fails: with every similarity at most 0.35 the
    loop may hold a category other than [Neutral / Unclassified], the layer
    returns nothing, and the engine never answers with that category. *)
Lemma C6_counterexample :
  (forall s, In s (all_similarities (encoder_only 40) (length_encoder 40) "a normal day")
             -> (s <= 35 # 100)%Q)
  /\ semantic_scan (cos_sim (encoder_only 40) (encode (length_encoder 40) "a normal day"))
       (ANCHOR_EMBEDDINGS (length_encoder 40)) (NeutralUnclassified, 0%Q)
     = Ok ("Verbal & Emotional Abuse", 336 # 1600)
  /\ "Verbal & Emotional Abuse" <> "Neutral / Unclassified"
  /\ semantic_layer (encoder_only 40) (length_encoder 40) "a normal day" = Ok None
  /\ forall score,
       hybrid_detect (encoder_only 40) "a normal day"
       <> Ok ("Neutral / Unclassified", "AI Semantic Similarity", score).
Proof.
  split; [|split; [|split; [|split]]].
  - intros s H. vm_compute in H.
    repeat (destruct H as [<- | H]; [vm_compute; discriminate|]).
    destruct H.
  - vm_compute. reflexivity.
  - discriminate.
  - vm_compute. reflexivity.
  - intros score. vm_compute. discriminate.
Qed.

(** C7: past the first test, with no trigger in the text, a topic layer that
    is absent or gives an unmapped topic, and a semantic layer that is absent
    or has no similarity above 0.35, the engine returns
    [(Healthy/Low Risk, System Default, 0.0)]: a result, never an exception;
    the layer of an absent model is not entered. *)
Theorem C7_system_default (env : Env) (text : string) :
  passes_guard text ->
  keyword_scan KEYWORD_TO_CATEGORY (PyStr.lower text) = None ->
  topic_abstains env text ->
  semantic_abstains env text ->
  hybrid_detect env text = Ok ("Healthy/Low Risk", "System Default", 0%Q)
  /\ (topic_model env = None -> ~ In TopicLayer (consulted env text))
  /\ (embedding_model env = None -> ~ In SemanticLayer (consulted env text)).
Proof.
  intros G K T S.
  pose proof (hybrid_detect_run_semantic env text G K T) as R.
  unfold hybrid_detect, consulted. rewrite R. cbn [fst snd].
  split; [|split].
  - destruct S as [-> | (em & -> & Hlow)]; [reflexivity|].
    now rewrite (semantic_layer_abstains env em text Hlow).
  - intros ->. cbn [seen_if app].
    destruct (embedding_model env); cbn; intuition discriminate.
  - intros ->. rewrite app_nil_r.
    destruct (topic_model env); cbn; intuition discriminate.
Qed.

Lemma C7_system_default_witness :
  hybrid_detect (topic_only 7 (Some [Scalar (9 # 10)])) "a normal day"
    = Ok ("Healthy/Low Risk", "System Default", 0%Q)
  /\ (topic_model (topic_only 7 (Some [Scalar (9 # 10)])) = None ->
      ~ In TopicLayer (consulted (topic_only 7 (Some [Scalar (9 # 10)])) "a normal day"))
  /\ (embedding_model (topic_only 7 (Some [Scalar (9 # 10)])) = None ->
      ~ In SemanticLayer (consulted (topic_only 7 (Some [Scalar (9 # 10)])) "a normal day")).
Proof.
  apply (C7_system_default (topic_only 7 (Some [Scalar (9 # 10)])) "a normal day").
  - split; [discriminate | vm_compute; discriminate].
  - vm_compute. reflexivity.
  - right. exists (fixed_topic 7 (Some [Scalar (9 # 10)])), 7, [], (Some [Scalar (9 # 10)]).
    repeat split.
  - left. reflexivity.
Defined.

(** With no model at all, and with a loaded encoder that finds nothing
    close. *)
Example default_without_models :
  hybrid_detect_run no_models "a normal day"
  = ([KeywordLayer], Ok ("Healthy/Low Risk", "System Default", 0%Q)).
Proof. vm_compute. reflexivity. Qed.

Example default_with_encoder :
  hybrid_detect_run (encoder_only 40) "a normal day"
  = ([KeywordLayer; SemanticLayer], Ok ("Healthy/Low Risk", "System Default", 0%Q)).
Proof. vm_compute. reflexivity. Qed.

(** ** Every way [hybrid_detect] returns *)

Lemma hybrid_detect_cases (env : Env) (text : string) (r : Result) :
  hybrid_detect env text = Ok r ->
  r = (HealthyLowRisk, "Insufficient Data", 0%Q)
  \/ (exists val, r = (val, "Manual Keyword Match", 1%Q))
  \/ (exists tm, topic_model env = Some tm /\ topic_layer tm text = Ok (Some r))
  \/ (exists em, embedding_model env = Some em /\ semantic_layer env em text = Ok (Some r))
  \/ r = (HealthyLowRisk, "System Default", 0%Q).
Proof.
  unfold hybrid_detect, hybrid_detect_run.
  destruct (String.eqb text EmptyString || (PyStr.len (PyStr.strip text) <? 5)).
  { cbn. intros [= <-]. now left. }
  destruct (keyword_scan KEYWORD_TO_CATEGORY (PyStr.lower text)) as [val|].
  { cbn. intros [= <-]. right; left. now exists val. }
  destruct (topic_model env) as [tm|]; cbn [guarded].
  - destruct (topic_layer tm text) as [[r2|]|e] eqn:L; cbn [snd].
    + intros [= <-]. right; right; left. now exists tm.
    + destruct (embedding_model env) as [em|]; cbn [guarded snd].
      * destruct (semantic_layer env em text) as [[r3|]|e] eqn:S.
        -- intros [= <-]. do 3 right; left. now exists em.
        -- intros [= <-]. now do 4 right.
        -- discriminate.
      * intros [= <-]. now do 4 right.
    + discriminate.
  - destruct (embedding_model env) as [em|]; cbn [guarded snd].
    + destruct (semantic_layer env em text) as [[r3|]|e] eqn:S.
      * intros [= <-]. do 3 right; left. now exists em.
      * intros [= <-]. now do 4 right.
      * discriminate.
    + intros [= <-]. now do 4 right.
Qed.

Lemma topic_layer_answer (tm : TopicModel) (text cat m : string) (conf : Q) :
  topic_layer tm text = Ok (Some (cat, m, conf)) ->
  exists t topics probs,
    transform tm [text] = (t :: topics, probs)
    /\ PyDict.get Z.eqb TOPIC_MAPPING t = Some cat
    /\ m = "AI Cluster " ++ PyStr.of_int t
    /\ topic_confidence probs = Ok conf.
Proof.
  unfold topic_layer.
  destruct (transform tm [text]) as [topics probs] eqn:Ht.
  destruct topics as [|t topics]; [discriminate|]. cbn [item0 bind].
  destruct (PyDict.get Z.eqb TOPIC_MAPPING t) as [c|] eqn:Hm; [|discriminate].
  destruct (topic_confidence probs) as [q|e] eqn:Hc; [|discriminate].
  cbn [bind]. intros [= <- <- <-].
  exists t, topics, probs.
  split; [reflexivity|]. split; [exact Hm|]. split; [reflexivity | exact Hc].
Qed.

Lemma semantic_layer_answer (env : Env) (em : EmbeddingModel) (text cat m : string)
    (conf : Q) :
  semantic_layer env em text = Ok (Some (cat, m, conf)) ->
  m = "AI Semantic Similarity"
  /\ (35 # 100 < conf)%Q
  /\ In conf (all_similarities env em text).
Proof.
  destruct (semantic_scan_best (cos_sim env (encode em text)) (ANCHOR_EMBEDDINGS em)
              (NeutralUnclassified, 0%Q) (anchors_nonempty em))
    as ([best score] & Hrun & _ & _ & Hfrom).
  cbn [fst snd] in *.
  unfold semantic_layer. rewrite Hrun. cbn [bind].
  destruct (PyNum.Qlt_bool (35 # 100) score) eqn:E; [|discriminate].
  intros [= <- <- <-]. apply Qlt_bool_iff in E.
  split; [reflexivity|]. split; [exact E|].
  destruct Hfrom as [Heq | (_ & embs & Hin & Hsc)].
  - inversion Heq; subst. exfalso. revert E. vm_compute. discriminate.
  - now apply (similarity_of_anchor env em text best embs).
Qed.

Lemma in_unit_half : in_unit (1 # 2).
Proof. split; vm_compute; discriminate. Qed.

Lemma in_unit_zero : in_unit 0.
Proof. split; vm_compute; discriminate. Qed.

Lemma in_unit_one : in_unit 1.
Proof. split; vm_compute; discriminate. Qed.

Lemma topic_confidence_in_unit (probs : option (list ProbRow)) (conf : Q) :
  (forall rows, probs = Some rows -> Forall row_in_unit rows) ->
  topic_confidence probs = Ok conf -> in_unit conf.
Proof.
  intros Hrows. unfold topic_confidence.
  destruct probs as [rows|]; [|intros [= <-]; apply in_unit_half].
  specialize (Hrows rows eq_refl).
  destruct rows as [|row rows]; [discriminate|]. cbn [item0 bind].
  inversion Hrows as [|? ? Hrow _]; subst.
  destruct row as [p|ps]; [intros [= <-]; exact Hrow|].
  destruct ps as [|p ps]; [discriminate|].
  intros [= <-]. cbn [row_in_unit] in Hrow.
  destruct (max_from_is_max p ps) as [Hin _].
  rewrite Forall_forall in Hrow. now apply Hrow.
Qed.

(** C8, as the code has it: when the topic model gives probabilities (numbers
    between 0 and 1) and no cosine similarity is above 1, the confidence of
    every result of the engine is between 0 and 1; and when the keyword layer
    has no match and the topic layer maps the topic, the method starts with
    [AI Cluster]. *)
Theorem C8_confidence_in_unit (env : Env) (text cat m : string) (conf : Q) :
  models_in_range env ->
  hybrid_detect env text = Ok (cat, m, conf) ->
  in_unit conf
  /\ (passes_guard text ->
      keyword_scan KEYWORD_TO_CATEGORY (PyStr.lower text) = None ->
      (exists tm t topics probs c,
          topic_model env = Some tm
          /\ transform tm [text] = (t :: topics, probs)
          /\ PyDict.get Z.eqb TOPIC_MAPPING t = Some c) ->
      String.prefix "AI Cluster" m = true).
Proof.
  intros [Hprobs Hcos] H. split.
  - destruct (hybrid_detect_cases env text _ H)
      as [E | [[val E] | [(tm & Htm & L) | [(em & Hem & S) | E]]]].
    + inversion E; subst. apply in_unit_zero.
    + inversion E; subst. apply in_unit_one.
    + destruct (topic_layer_answer tm text cat m conf L)
        as (t & topics & probs & Ht & _ & _ & Hc).
      apply (topic_confidence_in_unit probs conf); [|exact Hc].
      intros rows ->. apply (Hprobs tm [text] rows Htm). now rewrite Ht.
    + destruct (semantic_layer_answer env em text cat m conf S) as (_ & Hlow & Hin).
      unfold all_similarities in Hin. apply in_flat_map in Hin.
      destruct Hin as ([c embs] & _ & Hin). apply in_map_iff in Hin.
      destruct Hin as (a & <- & _). split; [|apply Hcos].
      apply Qlt_le_weak. apply Qle_lt_trans with (35 # 100); [|exact Hlow].
      apply Qle_bool_iff. reflexivity.
    + inversion E; subst. apply in_unit_zero.
  - intros G K (tm & t & topics & probs & c & Htm & Ht & Hm).
    pose proof (topic_layer_mapped tm text t topics probs c Ht Hm) as L.
    revert H. unfold hybrid_detect, hybrid_detect_run.
    rewrite (guard_false _ G), K, Htm. cbn [guarded]. rewrite L.
    destruct (topic_confidence probs) as [q|e]; cbn [bind snd]; [|discriminate].
    intros [= <- <- <-]. reflexivity.
Qed.

Lemma C8_confidence_in_unit_witness :
  hybrid_detect (topic_only 4 (Some [Scalar (9 # 10)])) "a normal day"
    = Ok ("Neglect & Emotional Withdrawal", "AI Cluster 4", 9 # 10)
  /\ in_unit (9 # 10)
  /\ String.prefix "AI Cluster" "AI Cluster 4" = true.
Proof.
  assert (R : hybrid_detect (topic_only 4 (Some [Scalar (9 # 10)])) "a normal day"
              = Ok ("Neglect & Emotional Withdrawal", "AI Cluster 4", 9 # 10))
    by (vm_compute; reflexivity).
  assert (M : models_in_range (topic_only 4 (Some [Scalar (9 # 10)]))).
  { split.
    - intros tm docs rows [= <-]. cbn. intros [= <-].
      constructor; [|constructor]. split; vm_compute; discriminate.
    - intros u a. vm_compute. discriminate. }
  destruct (C8_confidence_in_unit (topic_only 4 (Some [Scalar (9 # 10)])) "a normal day"
              "Neglect & Emotional Withdrawal" "AI Cluster 4" (9 # 10) M R) as [U P].
  split; [exact R|]. split; [exact U|].
  apply P.
  - split; [discriminate | vm_compute; discriminate].
  - vm_compute. reflexivity.
  - exists (fixed_topic 4 (Some [Scalar (9 # 10)])), 4, [], (Some [Scalar (9 # 10)]),
      "Neglect & Emotional Withdrawal".
    split; [reflexivity|]. split; reflexivity.
Defined.

(** C8, as the specification words it, fails: the engine passes on whatever number
    the topic model gives. *)
Lemma C8_counterexample :
  hybrid_detect (topic_only 2 (Some [Scalar (3 # 2)])) "a normal day"
    = Ok ("Control & Manipulation", "AI Cluster 2", 3 # 2)
  /\ ~ in_unit (3 # 2).
Proof.
  split; [vm_compute; reflexivity|].
  intros [_ H]. revert H. vm_compute. intros H. now apply H.
Qed.

(** ** When the engine returns *)

Lemma semantic_layer_returns (env : Env) (em : EmbeddingModel) (text : string) :
  exists o, semantic_layer env em text = Ok o.
Proof.
  destruct (semantic_scan_best (cos_sim env (encode em text)) (ANCHOR_EMBEDDINGS em)
              (NeutralUnclassified, 0%Q) (anchors_nonempty em))
    as ([best score] & Hrun & _).
  unfold semantic_layer. rewrite Hrun. cbn [bind].
  destruct (PyNum.Qlt_bool (35 # 100) score); eauto.
Qed.

Lemma topic_layer_returns (tm : TopicModel) (text : string)
    (t : Z) (topics : list Z) (probs : option (list ProbRow)) :
  transform tm [text] = (t :: topics, probs) ->
  probs = None \/ (exists row rows, probs = Some (row :: rows) /\ row <> Vector []) ->
  exists o, topic_layer tm text = Ok o.
Proof.
  intros Ht Hshape. unfold topic_layer. rewrite Ht. cbn [item0 bind].
  destruct (PyDict.get Z.eqb TOPIC_MAPPING t) as [cat|]; [|eauto].
  destruct Hshape as [-> | (row & rows & -> & Hrow)]; [cbn; eauto|].
  cbn [topic_confidence item0 bind].
  destruct row as [p|[|p ps]]; [cbn; eauto | congruence | cbn; eauto].
Qed.

(** The engine returns a result whenever the answer of the topic model has
    the expected shape; with no topic model it always does. *)
Lemma hybrid_detect_returns (env : Env) (text : string) :
  well_shaped env text -> exists r, hybrid_detect env text = Ok r.
Proof.
  intros W. unfold hybrid_detect, hybrid_detect_run.
  destruct (String.eqb text EmptyString || (PyStr.len (PyStr.strip text) <? 5)); [cbn; eauto|].
  destruct (keyword_scan KEYWORD_TO_CATEGORY (PyStr.lower text)); [cbn; eauto|].
  assert (S : forall seen2,
             exists r,
               snd (let '(seen3, r3) :=
                      guarded (embedding_model env) SemanticLayer
                        (fun em => semantic_layer env em text) in
                    ((KeywordLayer :: seen2 ++ seen3)%list,
                     match r3 with
                     | Raise e => Raise e
                     | Ok (Some r) => Ok r
                     | Ok None => Ok (HealthyLowRisk, "System Default", 0%Q)
                     end)) = Ok r).
  { intros seen2. destruct (embedding_model env) as [em|]; cbn [guarded snd]; [|eauto].
    destruct (semantic_layer_returns env em text) as [[r|] ->]; eauto. }
  destruct (topic_model env) as [tm|] eqn:T; cbn [guarded]; [|apply S].
  destruct (W tm T) as (t & topics & probs & Ht & Hshape).
  destruct (topic_layer_returns tm text t topics probs Ht Hshape) as [[r|] ->].
  - cbn. eauto.
  - apply S.
Qed.

(** ** Dictionaries *)

Section DictFacts.
Context {K V : Type} (eqb : K -> K -> bool).
Hypothesis eqb_eq : forall a b, eqb a b = true <-> a = b.

Lemma eqb_same (a : K) : eqb a a = true.
Proof. now apply eqb_eq. Qed.

Lemma eqb_differ (a b : K) : a <> b -> eqb a b = false.
Proof.
  intros H. destruct (eqb a b) eqn:E; [|reflexivity].
  apply eqb_eq in E. contradiction.
Qed.

Lemma get_set_same (d : list (K * V)) (k : K) (v : V) :
  PyDict.get eqb (PyDict.set eqb d k v) k = Some v.
Proof.
  induction d as [|[k' v'] d IH]; simpl.
  - now rewrite eqb_same.
  - destruct (eqb k' k) eqn:E; simpl; rewrite E; [reflexivity | exact IH].
Qed.

Lemma get_set_other (d : list (K * V)) (k k' : K) (v : V) :
  k <> k' -> PyDict.get eqb (PyDict.set eqb d k v) k' = PyDict.get eqb d k'.
Proof.
  intros Hne. induction d as [|[k0 v0] d IH]; simpl.
  - now rewrite (eqb_differ k k' Hne).
  - destruct (eqb k0 k) eqn:E; simpl.
    + apply eqb_eq in E. subst k0. now rewrite (eqb_differ k k' Hne).
    + now rewrite IH.
Qed.

Lemma get_none_keys (d : list (K * V)) (k : K) :
  PyDict.get eqb d k = None <-> ~ In k (PyDict.keys d).
Proof.
  induction d as [|[k0 v0] d IH]; simpl.
  - intuition.
  - destruct (eqb k0 k) eqn:E.
    + apply eqb_eq in E. subst. split; [discriminate | intros H; exfalso; auto].
    + rewrite IH. split.
      * intros H [Heq | Hin]; [|auto]. subst. rewrite eqb_same in E. discriminate.
      * intros H Hin. apply H. now right.
Qed.

Lemma set_entries (d : list (K * V)) (k : K) (v : V) (P : V -> Prop) :
  P v -> Forall (fun e => P (snd e)) d ->
  Forall (fun e => P (snd e)) (PyDict.set eqb d k v).
Proof.
  intros Hv Hd. induction Hd as [|[k0 v0] d H0 Hd IH]; simpl.
  - now repeat constructor.
  - destruct (eqb k0 k); constructor; auto.
Qed.
End DictFacts.

Lemma string_eqb_eq (a b : string) : String.eqb a b = true <-> a = b.
Proof. apply String.eqb_eq. Qed.

(** ** The risk logic *)

Lemma py_sum_from (ws : list Z) (z : Z) : fold_left Z.add ws z = z + total_of ws.
Proof.
  revert z; induction ws as [|w ws IH]; intros z; simpl; [lia|].
  rewrite IH. lia.
Qed.

(** The accumulated sum is the sum. *)
Lemma py_sum_total (ws : list Z) : PyNum.py_sum ws = total_of ws.
Proof. unfold PyNum.py_sum. now rewrite py_sum_from. Qed.

Lemma section_risk_policy (cat : string) (score : Z) :
  let '(risk, color) := section_risk_of cat score in
  (risk = "Severe" <-> cat = "Physical Abuse")
  /\ (color = "red" <-> cat = "Physical Abuse")
  /\ (cat = "Physical Abuse" -> (risk, color) = ("Severe", "red"))
  /\ (cat <> "Physical Abuse" -> 6 <= score -> (risk, color) = ("High", "orange"))
  /\ (cat <> "Physical Abuse" -> 2 <= score < 6 -> (risk, color) = ("Moderate", "yellow"))
  /\ (cat <> "Physical Abuse" -> score < 2 -> (risk, color) = ("Low", "green")).
Proof.
  unfold section_risk_of.
  destruct (String.eqb cat "Physical Abuse") eqn:E.
  - apply String.eqb_eq in E. repeat split; intros; try reflexivity; try contradiction; assumption.
  - apply String.eqb_neq in E.
    destruct (6 <=? score) eqn:E6; [apply Z.leb_le in E6 | apply Z.leb_gt in E6].
    + repeat split; intros; try reflexivity; try discriminate; try contradiction; lia.
    + destruct (2 <=? score) eqn:E2; [apply Z.leb_le in E2 | apply Z.leb_gt in E2];
        repeat split; intros; try reflexivity; try discriminate; try contradiction; lia.
Qed.

Lemma general_risk_policy (cat : string) (total : Z) :
  let '(risk, color) := general_risk_of cat total in
  (risk = "Severe" <-> cat = "Physical Abuse")
  /\ (color = "red" <-> cat = "Physical Abuse")
  /\ (cat = "Physical Abuse" -> (risk, color) = ("Severe", "red"))
  /\ (cat <> "Physical Abuse" -> 10 <= total -> (risk, color) = ("High", "orange"))
  /\ (cat <> "Physical Abuse" -> 3 <= total < 10 -> (risk, color) = ("Moderate", "yellow"))
  /\ (cat <> "Physical Abuse" -> total < 3 -> (risk, color) = ("Low", "green")).
Proof.
  unfold general_risk_of.
  destruct (String.eqb cat "Physical Abuse") eqn:E.
  - apply String.eqb_eq in E. repeat split; intros; try reflexivity; try contradiction; assumption.
  - apply String.eqb_neq in E.
    destruct (10 <=? total) eqn:E6; [apply Z.leb_le in E6 | apply Z.leb_gt in E6].
    + repeat split; intros; try reflexivity; try discriminate; try contradiction; lia.
    + destruct (3 <=? total) eqn:E2; [apply Z.leb_le in E2 | apply Z.leb_gt in E2];
        repeat split; intros; try reflexivity; try discriminate; try contradiction; lia.
Qed.

(** ** The loop over the sections *)

Lemma analyze_section_answered (env : Env) (acc : Acc) (name : string)
    (items : list AnswerItem) :
  items <> [] ->
  analyze_section env acc (name, items) =
    ('(cat, _, conf) <- hybrid_detect env (section_text_of items) ;;
     Ok {| acc_breakdown :=
             PyDict.set String.eqb (acc_breakdown acc) name
               (section_entry cat (section_score_of items) conf);
           all_sentences := (all_sentences acc ++ [section_text_of items])%list;
           total_risk_score := total_risk_score acc + section_score_of items |}).
Proof.
  destruct items; [congruence | reflexivity].
Qed.

(** What one turn does to the three variables. *)
Lemma analyze_section_step (env : Env) (acc acc' : Acc) (name : string)
    (items : list AnswerItem) :
  analyze_section env acc (name, items) = Ok acc' ->
  (items = [] /\ acc' = acc)
  \/ (items <> []
      /\ exists cat m conf,
           hybrid_detect env (section_text_of items) = Ok (cat, m, conf)
           /\ acc_breakdown acc' =
                PyDict.set String.eqb (acc_breakdown acc) name
                  (section_entry cat (section_score_of items) conf)
           /\ all_sentences acc' = (all_sentences acc ++ [section_text_of items])%list
           /\ total_risk_score acc' = total_risk_score acc + section_score_of items).
Proof.
  destruct items as [|item items].
  - cbn. intros [= <-]. now left.
  - rewrite analyze_section_answered by discriminate.
    destruct (hybrid_detect env (section_text_of (item :: items)))
      as [[[cat m] conf]|e]; cbn [bind]; [|discriminate].
    intros [= <-]. right. split; [discriminate|].
    exists cat, m, conf. repeat split.
Qed.

Lemma analyze_sections_app (env : Env) (acc : Acc) (l1 l2 : GroupedAnswers) :
  analyze_sections env acc (l1 ++ l2)%list =
    (acc1 <- analyze_sections env acc l1 ;; analyze_sections env acc1 l2).
Proof.
  revert acc; induction l1 as [|s l1 IH]; intros acc; [reflexivity|].
  cbn [app analyze_sections].
  destruct (analyze_section env acc s) as [acc1|e]; cbn [bind]; [apply IH | reflexivity].
Qed.

(** The texts are collected in order, and the scores are added up. *)
Lemma analyze_sections_totals (env : Env) (sections : GroupedAnswers) (acc acc' : Acc) :
  analyze_sections env acc sections = Ok acc' ->
  all_sentences acc' =
    (all_sentences acc ++ map (fun s => section_text_of (snd s)) (answered sections))%list
  /\ total_risk_score acc' =
       total_risk_score acc + total_of (map (fun s => section_score_of (snd s)) sections).
Proof.
  revert acc; induction sections as [|[name items] sections IH]; intros acc.
  - cbn. intros [= <-]. rewrite app_nil_r. split; [reflexivity | lia].
  - cbn [analyze_sections].
    destruct (analyze_section env acc (name, items)) as [acc1|e] eqn:S;
      cbn [bind]; [|discriminate].
    intros H. destruct (IH acc1 H) as [Ht Hs].
    destruct (analyze_section_step env acc acc1 name items S)
      as [[-> ->] | (Hne & cat & m & conf & _ & _ & Ht1 & Hs1)].
    + unfold total_of in *. cbn [answered filter snd map fold_right] in *.
      split; [exact Ht|]. rewrite Hs. change (section_score_of []) with 0. lia.
    + destruct items as [|item items]; [congruence|].
      unfold total_of in *. cbn [answered filter snd map fold_right] in *.
      rewrite Ht, Ht1, Hs, Hs1. split; [now rewrite <- app_assoc | lia].
Qed.

(** A name that no answered section carries keeps its entry. *)
Lemma analyze_sections_keeps (env : Env) (sections : GroupedAnswers) (acc acc' : Acc)
    (name : string) :
  ~ In name (map fst (answered sections)) ->
  analyze_sections env acc sections = Ok acc' ->
  PyDict.get String.eqb (acc_breakdown acc') name
  = PyDict.get String.eqb (acc_breakdown acc) name.
Proof.
  revert acc; induction sections as [|[n items] sections IH]; intros acc Hout.
  - cbn. now intros [= <-].
  - cbn [analyze_sections].
    destruct (analyze_section env acc (n, items)) as [acc1|e] eqn:S;
      cbn [bind]; [|discriminate].
    intros H.
    destruct (analyze_section_step env acc acc1 n items S)
      as [[-> ->] | (Hne & cat & m & conf & _ & Hb & _)].
    + apply (IH acc); [exact Hout | exact H].
    + destruct items as [|item items]; [congruence|].
      cbn [answered filter snd map fst] in Hout.
      rewrite (IH acc1) by (try exact H; intros Hin; apply Hout; now right).
      rewrite Hb. apply (get_set_other String.eqb string_eqb_eq).
      intros ->. apply Hout. now left.
Qed.

(** The entry of an answered section, when the names are those of a
    dictionary. *)
Lemma analyze_sections_entry (env : Env) (sections : GroupedAnswers) (acc acc' : Acc)
    (name : string) (items : list AnswerItem) :
  NoDup (map fst sections) ->
  In (name, items) sections ->
  items <> [] ->
  analyze_sections env acc sections = Ok acc' ->
  exists cat m conf,
    hybrid_detect env (section_text_of items) = Ok (cat, m, conf)
    /\ PyDict.get String.eqb (acc_breakdown acc') name
       = Some (section_entry cat (section_score_of items) conf).
Proof.
  revert acc; induction sections as [|[n its] sections IH]; intros acc Hnd Hin Hne.
  - destruct Hin.
  - cbn [analyze_sections].
    destruct (analyze_section env acc (n, its)) as [acc1|e] eqn:S;
      cbn [bind]; [|discriminate].
    intros H. cbn [map fst] in Hnd. inversion Hnd as [|? ? Hfresh Hnd']; subst.
    destruct Hin as [Heq | Hin].
    + inversion Heq; subst n its.
      destruct (analyze_section_step env acc acc1 name items S)
        as [[-> _] | (_ & cat & m & conf & Hd & Hb & _)]; [congruence|].
      exists cat, m, conf. split; [exact Hd|].
      rewrite (analyze_sections_keeps env sections acc1 acc' name).
      * rewrite Hb. apply (get_set_same String.eqb string_eqb_eq).
      * intros Hk. apply Hfresh. apply in_map_iff in Hk.
        destruct Hk as (s & <- & Hs). apply in_map. unfold answered in Hs.
        apply filter_In in Hs. apply Hs.
      * exact H.
    + apply (IH acc1); assumption.
Qed.

(** Every entry of [breakdown] has a confidence that ends with the percent
    sign. *)
Lemma analyze_sections_percent (env : Env) (sections : GroupedAnswers) (acc acc' : Acc) :
  Forall (fun e => PyStr.endswith (section_confidence (snd e)) "%" = true)
    (acc_breakdown acc) ->
  analyze_sections env acc sections = Ok acc' ->
  Forall (fun e => PyStr.endswith (section_confidence (snd e)) "%" = true)
    (acc_breakdown acc').
Proof.
  revert acc; induction sections as [|[n items] sections IH]; intros acc Hacc.
  - cbn. now intros [= <-].
  - cbn [analyze_sections].
    destruct (analyze_section env acc (n, items)) as [acc1|e] eqn:S;
      cbn [bind]; [|discriminate].
    apply IH.
    destruct (analyze_section_step env acc acc1 n items S)
      as [[-> ->] | (_ & cat & m & conf & _ & -> & _)]; [exact Hacc|].
    apply (set_entries String.eqb
             (acc_breakdown acc) n _
             (fun v => PyStr.endswith (section_confidence v) "%" = true)); [|exact Hacc].
    unfold section_entry. destruct (section_risk_of cat (section_score_of items)).
    cbn [section_confidence]. apply endswith_percent.
Qed.

Lemma analyze_answer (env : Env) (grouped_answers : GroupedAnswers) (resp : Response) :
  analyze env grouped_answers = Ok resp ->
  exists acc gen_cat gen_method gen_conf,
    analyze_sections env acc0 grouped_answers = Ok acc
    /\ hybrid_detect env (PyStr.join " " (all_sentences acc))
       = Ok (gen_cat, gen_method, gen_conf)
    /\ breakdown resp = acc_breakdown acc
    /\ general resp =
         {| category := gen_cat;
            risk := fst (general_risk_of gen_cat (total_risk_score acc));
            color := snd (general_risk_of gen_cat (total_risk_score acc));
            advice := advice_for gen_cat;
            method := gen_method;
            confidence := PyNum.str_round1 (gen_conf * 100) |}.
Proof.
  unfold analyze.
  destruct (analyze_sections env acc0 grouped_answers) as [acc|e] eqn:L;
    cbn [bind]; [|discriminate].
  unfold general_analysis.
  destruct (hybrid_detect env (PyStr.join " " (all_sentences acc)))
    as [[[gen_cat gen_method] gen_conf]|e] eqn:D; cbn [bind]; [|discriminate].
  destruct (general_risk_of gen_cat (total_risk_score acc)) as [gen_risk gen_color] eqn:R.
  intros [= <-]. exists acc, gen_cat, gen_method, gen_conf.
  cbn [breakdown general]. rewrite R. cbn [fst snd].
  split; [reflexivity|]. split; [exact D|]. split; reflexivity.
Qed.

(** [analyze] answers with a result whenever the engine returns on every
    text. *)
Lemma analyze_returns (env : Env) (grouped_answers : GroupedAnswers) :
  (forall t, exists r, hybrid_detect env t = Ok r) ->
  exists resp, analyze env grouped_answers = Ok resp.
Proof.
  intros Hd. unfold analyze.
  assert (L : forall acc, exists acc', analyze_sections env acc grouped_answers = Ok acc').
  { induction grouped_answers as [|[n items] sections IH]; intros acc; [cbn; eauto|].
    cbn [analyze_sections]. destruct items as [|item items].
    - cbn. apply IH.
    - rewrite analyze_section_answered by discriminate.
      destruct (Hd (section_text_of (item :: items))) as [[[cat m] conf] ->].
      cbn [bind]. apply IH. }
  destruct (L acc0) as [acc ->]. cbn [bind]. unfold general_analysis.
  destruct (Hd (PyStr.join " " (all_sentences acc))) as [[[cat m] conf] ->].
  cbn [bind]. destruct (general_risk_of cat (total_risk_score acc)). eauto.
Qed.

(** ** The answer of [analyze] *)

(** C1: the entry of every answered section has the category that the engine
    gives to the text of the section; its risk is Severe, and its colour red,
    exactly when that category is Physical Abuse, whatever the sum of the
    weights; otherwise it is High/orange from 6, Moderate/yellow from 2, and
    Low/green below. *)
Theorem C1_section_risk (env : Env) (grouped_answers : GroupedAnswers) (resp : Response)
    (name : string) (items : list AnswerItem) :
  NoDup (map fst grouped_answers) ->
  In (name, items) grouped_answers ->
  items <> [] ->
  analyze env grouped_answers = Ok resp ->
  exists cat m conf entry,
    hybrid_detect env (section_text_of items) = Ok (cat, m, conf)
    /\ PyDict.get String.eqb (breakdown resp) name = Some entry
    /\ section_category entry = cat
    /\ (section_risk entry = "Severe" <-> cat = "Physical Abuse")
    /\ (section_color entry = "red" <-> cat = "Physical Abuse")
    /\ (cat = "Physical Abuse" ->
        (section_risk entry, section_color entry) = ("Severe", "red"))
    /\ (cat <> "Physical Abuse" -> 6 <= total_of (map weight items) ->
        (section_risk entry, section_color entry) = ("High", "orange"))
    /\ (cat <> "Physical Abuse" -> 2 <= total_of (map weight items) < 6 ->
        (section_risk entry, section_color entry) = ("Moderate", "yellow"))
    /\ (cat <> "Physical Abuse" -> total_of (map weight items) < 2 ->
        (section_risk entry, section_color entry) = ("Low", "green")).
Proof.
  intros Hnd Hin Hne H.
  destruct (analyze_answer env grouped_answers resp H)
    as (acc & _ & _ & _ & Hloop & _ & Hb & _).
  destruct (analyze_sections_entry env grouped_answers acc0 acc name items
              Hnd Hin Hne Hloop) as (cat & m & conf & Hd & He).
  exists cat, m, conf, (section_entry cat (section_score_of items) conf).
  split; [exact Hd|]. split; [now rewrite Hb|].
  pose proof (section_risk_policy cat (section_score_of items)) as P.
  unfold section_entry. unfold section_score_of in *. rewrite py_sum_total in *.
  destruct (section_risk_of cat (total_of (map weight items))) as [risk color].
  cbn [section_category section_risk section_color].
  split; [reflexivity | exact P].
Qed.

Lemma C1_section_risk_witness :
  exists resp,
    analyze no_models request_hit = Ok resp
    /\ exists cat m conf entry,
         hybrid_detect no_models (section_text_of [item "he hit me" 7]) = Ok (cat, m, conf)
         /\ PyDict.get String.eqb (breakdown resp) "Section A" = Some entry
         /\ section_category entry = cat
         /\ (section_risk entry = "Severe" <-> cat = "Physical Abuse")
         /\ (section_color entry = "red" <-> cat = "Physical Abuse")
         /\ (cat = "Physical Abuse" ->
             (section_risk entry, section_color entry) = ("Severe", "red"))
         /\ (cat <> "Physical Abuse" -> 6 <= total_of (map weight [item "he hit me" 7]) ->
             (section_risk entry, section_color entry) = ("High", "orange"))
         /\ (cat <> "Physical Abuse" ->
             2 <= total_of (map weight [item "he hit me" 7]) < 6 ->
             (section_risk entry, section_color entry) = ("Moderate", "yellow"))
         /\ (cat <> "Physical Abuse" -> total_of (map weight [item "he hit me" 7]) < 2 ->
             (section_risk entry, section_color entry) = ("Low", "green")).
Proof.
  eexists. split; [vm_compute; reflexivity|].
  apply (C1_section_risk no_models request_hit _ "Section A" [item "he hit me" 7]).
  - repeat constructor. intros [].
  - left. reflexivity.
  - discriminate.
  - vm_compute. reflexivity.
Defined.

(** The scenario of the specification: a weight sum of 7 would be High, and
    the category makes it Severe. *)
Example severe_over_high :
  exists resp,
    analyze no_models request_hit = Ok resp
    /\ breakdown resp =
         [("Section A",
           {| section_category := "Physical Abuse"; section_risk := "Severe";
              section_color := "red"; section_confidence := "100.0%" |})].
Proof. eexists. split; vm_compute; reflexivity. Qed.

(** C2: the accumulated total is the sum of the weight sums of the sections;
    the overall category is what the engine gives to the texts of the
    sections joined in order, by a run of its own; the overall risk is Severe
    exactly when that category is Physical Abuse, otherwise High from 10,
    Moderate from 3, and Low below. *)
Theorem C2_overall_outcome (env : Env) (grouped_answers : GroupedAnswers)
    (resp : Response) :
  analyze env grouped_answers = Ok resp ->
  exists acc gen_cat gen_method gen_conf,
    analyze_sections env acc0 grouped_answers = Ok acc
    /\ total_risk_score acc
       = total_of (map (fun s => total_of (map weight (snd s))) grouped_answers)
    /\ hybrid_detect env
         (PyStr.join " " (map (fun s => section_text_of (snd s)) (answered grouped_answers)))
       = Ok (gen_cat, gen_method, gen_conf)
    /\ category (general resp) = gen_cat
    /\ method (general resp) = gen_method
    /\ (risk (general resp) = "Severe" <-> gen_cat = "Physical Abuse")
    /\ (color (general resp) = "red" <-> gen_cat = "Physical Abuse")
    /\ (gen_cat = "Physical Abuse" ->
        (risk (general resp), color (general resp)) = ("Severe", "red"))
    /\ (gen_cat <> "Physical Abuse" -> 10 <= total_risk_score acc ->
        (risk (general resp), color (general resp)) = ("High", "orange"))
    /\ (gen_cat <> "Physical Abuse" -> 3 <= total_risk_score acc < 10 ->
        (risk (general resp), color (general resp)) = ("Moderate", "yellow"))
    /\ (gen_cat <> "Physical Abuse" -> total_risk_score acc < 3 ->
        (risk (general resp), color (general resp)) = ("Low", "green")).
Proof.
  intros H.
  destruct (analyze_answer env grouped_answers resp H)
    as (acc & gen_cat & gen_method & gen_conf & Hloop & Hd & _ & Hg).
  destruct (analyze_sections_totals env grouped_answers acc0 acc Hloop) as [Ht Hs].
  cbn [acc0 all_sentences total_risk_score app] in Ht, Hs.
  exists acc, gen_cat, gen_method, gen_conf.
  split; [exact Hloop|]. split.
  { rewrite Hs, Z.add_0_l. f_equal. apply map_ext. intros s.
    unfold section_score_of. apply py_sum_total. }
  split; [now rewrite <- Ht|].
  rewrite Hg. cbn [category method risk color].
  pose proof (general_risk_policy gen_cat (total_risk_score acc)) as P.
  destruct (general_risk_of gen_cat (total_risk_score acc)) as [r c].
  cbn [fst snd]. split; [reflexivity|]. split; [reflexivity | exact P].
Qed.

Lemma C2_overall_outcome_witness :
  exists resp,
    analyze no_models request_two_sections = Ok resp
    /\ exists acc gen_cat gen_method gen_conf,
         analyze_sections no_models acc0 request_two_sections = Ok acc
         /\ total_risk_score acc
            = total_of (map (fun s => total_of (map weight (snd s))) request_two_sections)
         /\ hybrid_detect no_models
              (PyStr.join " "
                 (map (fun s => section_text_of (snd s)) (answered request_two_sections)))
            = Ok (gen_cat, gen_method, gen_conf)
         /\ category (general resp) = gen_cat
         /\ method (general resp) = gen_method
         /\ (risk (general resp) = "Severe" <-> gen_cat = "Physical Abuse")
         /\ (color (general resp) = "red" <-> gen_cat = "Physical Abuse")
         /\ (gen_cat = "Physical Abuse" ->
             (risk (general resp), color (general resp)) = ("Severe", "red"))
         /\ (gen_cat <> "Physical Abuse" -> 10 <= total_risk_score acc ->
             (risk (general resp), color (general resp)) = ("High", "orange"))
         /\ (gen_cat <> "Physical Abuse" -> 3 <= total_risk_score acc < 10 ->
             (risk (general resp), color (general resp)) = ("Moderate", "yellow"))
         /\ (gen_cat <> "Physical Abuse" -> total_risk_score acc < 3 ->
             (risk (general resp), color (general resp)) = ("Low", "green")).
Proof.
  eexists. split; [vm_compute; reflexivity|].
  apply (C2_overall_outcome no_models request_two_sections).
  vm_compute. reflexivity.
Defined.

(** The scenario of the specification: two sections of score 3 are Moderate
    each, and the total of 6 is Moderate overall. *)
Example two_sections_run :
  analyze no_models request_two_sections
  = Ok {| general :=
            {| category := "Healthy/Low Risk"; risk := "Moderate"; color := "yellow";
               advice := "Maintain open communication.";
               method := "System Default"; confidence := "0.0" |};
          breakdown :=
            [("S1", {| section_category := "Healthy/Low Risk"; section_risk := "Moderate";
                       section_color := "yellow"; section_confidence := "0.0%" |});
             ("S2", {| section_category := "Healthy/Low Risk"; section_risk := "Moderate";
                       section_color := "yellow"; section_confidence := "0.0%" |})] |}.
Proof. vm_compute. reflexivity. Qed.

(** The overall category comes from the joined text, not from the categories
    of the sections: ["he" ++ " " ++ "hit me"] has a trigger that neither
    section has. *)
Example overall_category_is_independent :
  exists resp,
    analyze no_models [("S1", [item "he hit" 0]); ("S2", [item "me so" 0])] = Ok resp
    /\ category (general resp) = "Physical Abuse"
    /\ map (fun e => section_category (snd e)) (breakdown resp)
       = ["Physical Abuse"; "Healthy/Low Risk"].
Proof. eexists. repeat split; vm_compute; reflexivity. Qed.

(** Every confidence of [breakdown] ends with the percent sign. *)
Lemma breakdown_confidence_percent (env : Env) (grouped_answers : GroupedAnswers)
    (resp : Response) :
  analyze env grouped_answers = Ok resp ->
  Forall (fun e => PyStr.endswith (section_confidence (snd e)) "%" = true)
    (breakdown resp).
Proof.
  intros H.
  destruct (analyze_answer env grouped_answers resp H)
    as (acc & _ & _ & _ & Hloop & _ & -> & _).
  apply (analyze_sections_percent env grouped_answers acc0 acc); [constructor | exact Hloop].
Qed.

(** C9, at a request where the code departs from it: whatever the models,
    the confidence of the section is rendered ["100.0%"], and the overall
    confidence of the same answer ["100.0"], with no percent sign. *)
Theorem C9_general_confidence_has_no_percent (env : Env) :
  exists resp entry,
    analyze env request_hit = Ok resp
    /\ PyDict.get String.eqb (breakdown resp) "Section A" = Some entry
    /\ section_confidence entry = "100.0%"
    /\ confidence (general resp) = "100.0"
    /\ PyStr.endswith (confidence (general resp)) "%" = false.
Proof.
  eexists. eexists.
  split; [vm_compute; reflexivity|].
  split; [vm_compute; reflexivity|].
  split; [reflexivity|]. split; vm_compute; reflexivity.
Qed.

(** The same on the empty request. *)
Example empty_request_run (env : Env) :
  analyze env []
  = Ok {| general :=
            {| category := "Healthy/Low Risk"; risk := "Low"; color := "green";
               advice := "Maintain open communication.";
               method := "Insufficient Data"; confidence := "0.0" |};
          breakdown := [] |}.
Proof. vm_compute. reflexivity. Qed.

(** C10: a section with no item changes nothing: the loop ends in the same
    state, and [analyze] gives the same answer, as on the request without it;
    the texts collected and the total are those of the other sections; and
    its name is no key of [breakdown] (the names of a request are those of a
    dictionary: no other section has the same). *)
Theorem C10_empty_section_skipped (env : Env) (before after : GroupedAnswers)
    (name : string) :
  ~ In name (map fst (before ++ after)%list) ->
  analyze_sections env acc0 (before ++ (name, []) :: after)%list
    = analyze_sections env acc0 (before ++ after)%list
  /\ analyze env (before ++ (name, []) :: after)%list = analyze env (before ++ after)%list
  /\ forall acc,
       analyze_sections env acc0 (before ++ (name, []) :: after)%list = Ok acc ->
       all_sentences acc
         = map (fun s => section_text_of (snd s)) (answered (before ++ after)%list)
       /\ total_risk_score acc
          = total_of (map (fun s => total_of (map weight (snd s))) (before ++ after)%list)
       /\ PyDict.get String.eqb (acc_breakdown acc) name = None
       /\ ~ In name (PyDict.keys (acc_breakdown acc)).
Proof.
  intros Hfresh.
  assert (E : analyze_sections env acc0 (before ++ (name, []) :: after)%list
              = analyze_sections env acc0 (before ++ after)%list).
  { rewrite !analyze_sections_app.
    destruct (analyze_sections env acc0 before); reflexivity. }
  split; [exact E|]. split; [unfold analyze; now rewrite E|].
  intros acc H. rewrite E in H.
  destruct (analyze_sections_totals env _ acc0 acc H) as [Ht Hs].
  cbn [acc0 all_sentences total_risk_score app] in Ht, Hs.
  assert (G : PyDict.get String.eqb (acc_breakdown acc) name = None).
  { rewrite (analyze_sections_keeps env (before ++ after)%list acc0 acc name);
      [reflexivity | | exact H].
    intros Hk. apply Hfresh. apply in_map_iff in Hk.
    destruct Hk as (s & <- & Hs'). apply in_map. unfold answered in Hs'.
    apply filter_In in Hs'. apply Hs'. }
  split; [exact Ht|]. split.
  { rewrite Hs, Z.add_0_l. f_equal. apply map_ext. intros s.
    unfold section_score_of. apply py_sum_total. }
  split; [exact G|].
  now apply (get_none_keys String.eqb string_eqb_eq).
Qed.

Lemma C10_empty_section_skipped_witness :
  analyze no_models request_with_empty
    = analyze no_models [("S1", [item "normal day" 3]); ("S3", [item "quiet evening" 1])]
  /\ forall acc,
       analyze_sections no_models acc0 request_with_empty = Ok acc ->
       all_sentences acc = ["normal day"; "quiet evening"]
       /\ total_risk_score acc = 4
       /\ PyDict.get String.eqb (acc_breakdown acc) "S2" = None
       /\ ~ In "S2" (PyDict.keys (acc_breakdown acc)).
Proof.
  assert (F : ~ In "S2" (map fst ([("S1", [item "normal day" 3])]
                                  ++ [("S3", [item "quiet evening" 1])])%list)).
  { cbn. intros [H | [H | []]]; discriminate. }
  destruct (C10_empty_section_skipped no_models
              [("S1", [item "normal day" 3])] [("S3", [item "quiet evening" 1])] "S2" F)
    as (_ & A & S).
  split; [exact A|]. intros acc H. exact (S acc H).
Defined.

Example empty_section_run :
  exists resp,
    analyze no_models request_with_empty = Ok resp
    /\ PyDict.keys (breakdown resp) = ["S1"; "S3"]
    /\ risk (general resp) = "Moderate".
Proof. eexists. repeat split; vm_compute; reflexivity. Qed.

(* ================================================================== *)
(** * Further properties of the engine *)

(** ** The paths through [hybrid_detect] *)

Lemma guard_passed (text : string) :
  String.eqb text EmptyString || (PyStr.len (PyStr.strip text) <? 5) = false ->
  passes_guard text.
Proof.
  intros H. apply orb_false_iff in H. destruct H as [H1 H2].
  split; [now apply String.eqb_neq | apply Z.ltb_ge in H2; lia].
Qed.

Lemma guard_stopped (text : string) :
  String.eqb text EmptyString || (PyStr.len (PyStr.strip text) <? 5) = true ->
  text = EmptyString \/ PyStr.len (PyStr.strip text) < 5.
Proof.
  intros H. apply orb_true_iff in H. destruct H as [H | H].
  - left. now apply String.eqb_eq.
  - right. now apply Z.ltb_lt.
Qed.

Lemma hybrid_detect_path (env : Env) (text : string) :
  path env text (consulted env text) (hybrid_detect env text).
Proof.
  unfold consulted, hybrid_detect, hybrid_detect_run.
  destruct (String.eqb text EmptyString || (PyStr.len (PyStr.strip text) <? 5)) eqn:G.
  { cbn. apply path_guard. now apply guard_stopped. }
  apply guard_passed in G.
  destruct (keyword_scan KEYWORD_TO_CATEGORY (PyStr.lower text)) as [val|] eqn:K.
  { cbn. now apply path_keyword. }
  assert (S : forall seen2,
             seen2 = seen_if (topic_model env) TopicLayer ->
             (forall tm, topic_model env = Some tm -> topic_layer tm text = Ok None) ->
             let run3 :=
               (let '(seen3, r3) :=
                  guarded (embedding_model env) SemanticLayer
                    (fun em => semantic_layer env em text) in
                ((KeywordLayer :: seen2 ++ seen3)%list,
                 match r3 with
                 | Raise e => Raise e
                 | Ok (Some r) => Ok r
                 | Ok None => Ok (HealthyLowRisk, "System Default", 0%Q)
                 end)) in
             path env text (fst run3) (snd run3)).
  { intros seen2 -> T.
    destruct (embedding_model env) as [em|] eqn:E; cbn [guarded fst snd].
    - destruct (semantic_layer env em text) as [[r|]|e] eqn:S.
      + now apply (path_semantic env text em r).
      + assert (P := path_default env text G K T).
        rewrite E in P. cbn [seen_if] in P. apply P.
        intros em' [= <-]. exact S.
      + destruct (semantic_layer_returns env em text) as [o S']. congruence.
    - assert (P := path_default env text G K T).
      rewrite E in P. cbn [seen_if] in P. apply P.
      intros em' E'. discriminate. }
  destruct (topic_model env) as [tm|] eqn:T; cbn [guarded].
  - destruct (topic_layer tm text) as [[r|]|e] eqn:L.
    + cbn. now apply (path_topic env text tm r).
    + apply (S [TopicLayer]); [reflexivity|].
      intros tm' [= <-]. exact L.
    + cbn. now apply (path_topic_raise env text tm e).
  - apply (S []); [reflexivity|].
    intros tm' E'. discriminate.
Qed.

Lemma keyword_scan_value (table : list (string * string)) (s val : string) :
  keyword_scan table s = Some val ->
  exists key, In (key, val) table /\ PyStr.contains key s = true.
Proof.
  induction table as [|[k v] table IH]; simpl; [discriminate|].
  destruct (PyStr.contains k s) eqn:E.
  - intros [= <-]. exists k. split; [now left | exact E].
  - intros H. destruct (IH H) as (key & Hin & Hc). exists key. split; [now right | exact Hc].
Qed.

Lemma topic_mapping_entry (t : Z) (cat : string) :
  PyDict.get Z.eqb TOPIC_MAPPING t = Some cat -> In (t, cat) TOPIC_MAPPING.
Proof.
  assert (G : forall d : list (Z * string),
             PyDict.get Z.eqb d t = Some cat -> In (t, cat) d).
  { induction d as [|[k v] d IH]; simpl; [discriminate|].
    destruct (Z.eqb k t) eqn:E.
    - intros [= <-]. apply Z.eqb_eq in E. subst. now left.
    - intros H. right. now apply IH. }
  apply G.
Qed.

Lemma semantic_layer_category (env : Env) (em : EmbeddingModel) (text cat m : string)
    (conf : Q) :
  semantic_layer env em text = Ok (Some (cat, m, conf)) ->
  exists sentences, In (cat, sentences) ANCHOR_SENTENCES.
Proof.
  destruct (semantic_scan_best (cos_sim env (encode em text)) (ANCHOR_EMBEDDINGS em)
              (NeutralUnclassified, 0%Q) (anchors_nonempty em))
    as ([best score] & Hrun & _ & _ & Hfrom).
  cbn [fst snd] in *.
  unfold semantic_layer. rewrite Hrun. cbn [bind].
  destruct (PyNum.Qlt_bool (35 # 100) score) eqn:E; [|discriminate].
  intros [= <- <- <-]. apply Qlt_bool_iff in E.
  destruct Hfrom as [Heq | (_ & embs & Hin & _)].
  - inversion Heq; subst. exfalso. revert E. vm_compute. discriminate.
  - unfold ANCHOR_EMBEDDINGS in Hin. apply in_map_iff in Hin.
    destruct Hin as ([c ss] & Heq & Hin). inversion Heq; subst.
    now exists ss.
Qed.

(** The pairs of category and method that a result can carry. *)
Lemma result_shape (env : Env) (text cat m : string) (conf : Q) :
  hybrid_detect env text = Ok (cat, m, conf) ->
  (cat, m) = (HealthyLowRisk, "Insufficient Data")
  \/ (m = "Manual Keyword Match"
      /\ exists key, In (key, cat) KEYWORD_TO_CATEGORY)
  \/ (exists t, In (t, cat) TOPIC_MAPPING /\ m = "AI Cluster " ++ PyStr.of_int t)
  \/ (m = "AI Semantic Similarity"
      /\ exists sentences, In (cat, sentences) ANCHOR_SENTENCES)
  \/ (cat, m) = (HealthyLowRisk, "System Default").
Proof.
  intros H. pose proof (hybrid_detect_path env text) as P. rewrite H in P.
  inversion P as [G | val G K | tm r G K T L | | em r G K T E S | G K T S]; subst.
  - now left.
  - right; left. split; [reflexivity|].
    destruct (keyword_scan_value _ _ _ K) as (key & Hin & _). now exists key.
  - right; right; left.
    destruct (topic_layer_answer tm text cat m conf L) as (t & topics & probs & _ & Hm & -> & _).
    exists t. split; [now apply topic_mapping_entry | reflexivity].
  - do 3 right; left.
    destruct (semantic_layer_answer env em text cat m conf S) as (-> & _).
    split; [reflexivity | exact (semantic_layer_category env em text cat _ conf S)].
  - now do 4 right.
Qed.

Lemma result_category_among (env : Env) (text cat m : string) (conf : Q) :
  hybrid_detect env text = Ok (cat, m, conf) -> In cat result_categories.
Proof.
  intros H.
  destruct (result_shape env text cat m conf H)
    as [E | [(_ & key & Hin) | [(t & Hin & _) | [(_ & ss & Hin) | E]]]].
  - inversion E. cbn. tauto.
  - cbn in Hin. repeat (destruct Hin as [Hin | Hin]; [inversion Hin; cbn; tauto|]).
    destruct Hin.
  - cbn in Hin. repeat (destruct Hin as [Hin | Hin]; [inversion Hin; cbn; tauto|]).
    destruct Hin.
  - cbn in Hin. repeat (destruct Hin as [Hin | Hin]; [inversion Hin; cbn; tauto|]).
    destruct Hin.
  - inversion E. cbn. tauto.
Qed.

(** X1: whatever the models give, the category of a result is one of
    Physical Abuse, Control & Manipulation, Verbal & Emotional Abuse,
    Neglect & Emotional Withdrawal and Healthy/Low Risk; it is never
    Neutral / Unclassified. *)
Theorem result_category_closed (env : Env) (text cat m : string) (conf : Q) :
  hybrid_detect env text = Ok (cat, m, conf) ->
  In cat result_categories /\ cat <> "Neutral / Unclassified".
Proof.
  intros H. pose proof (result_category_among env text cat m conf H) as C.
  split; [exact C|].
  cbn in C. repeat (destruct C as [<- | C]; [discriminate|]). destruct C.
Qed.

Lemma result_category_closed_witness :
  In "Verbal & Emotional Abuse" result_categories
  /\ "Verbal & Emotional Abuse" <> "Neutral / Unclassified".
Proof.
  apply (result_category_closed (encoder_only 10) "a normal day"
           "Verbal & Emotional Abuse" "AI Semantic Similarity" (336 # 100)).
  vm_compute. reflexivity.
Defined.

(** X2: the method of a result is one of eleven texts: Insufficient Data,
    Manual Keyword Match, AI Cluster followed by one of 1, 2, 3, 4, 5, 6, 8,
    AI Semantic Similarity, System Default. *)
Theorem result_method_closed (env : Env) (text cat m : string) (conf : Q) :
  hybrid_detect env text = Ok (cat, m, conf) -> In m result_methods.
Proof.
  intros H.
  destruct (result_shape env text cat m conf H)
    as [E | [(-> & _) | [(t & Hin & ->) | [(-> & _) | E]]]].
  - inversion E. cbn. tauto.
  - cbn. tauto.
  - cbn in Hin. repeat (destruct Hin as [Hin | Hin]; [inversion Hin; cbn; tauto|]).
    destruct Hin.
  - cbn. tauto.
  - inversion E. cbn. tauto.
Qed.

Lemma result_method_closed_witness : In "AI Cluster 8" result_methods.
Proof.
  apply (result_method_closed (topic_only 8 None) "a normal day"
           "Verbal & Emotional Abuse" "AI Cluster 8" (1 # 2)).
  vm_compute. reflexivity.
Defined.

(** X3: a result says Insufficient Data exactly when the text is empty or
    shorter than 5 characters once stripped. *)
Theorem insufficient_data_exactly (env : Env) (text cat m : string) (conf : Q) :
  hybrid_detect env text = Ok (cat, m, conf) ->
  (m = "Insufficient Data" <->
   text = EmptyString \/ PyStr.len (PyStr.strip text) < 5).
Proof.
  intros H. pose proof (hybrid_detect_path env text) as P. rewrite H in P.
  assert (N : passes_guard text ->
              ~ (text = EmptyString \/ PyStr.len (PyStr.strip text) < 5)).
  { intros [G1 G2] [E | E]; [contradiction | lia]. }
  inversion P as [G | val G K | tm r G K T L | | em r G K T E S | G K T S]; subst.
  - split; [intros _; exact G | reflexivity].
  - split; [discriminate | intros B; now apply N in B].
  - destruct (topic_layer_answer tm text cat m conf L) as (t & _ & _ & _ & _ & -> & _).
    split; [discriminate | intros B; now apply N in B].
  - destruct (semantic_layer_answer env em text cat m conf S) as (-> & _).
    split; [discriminate | intros B; now apply N in B].
  - split; [discriminate | intros B; now apply N in B].
Qed.

Lemma insufficient_data_exactly_witness :
  "System Default" = "Insufficient Data" <->
  "a b c" = EmptyString \/ PyStr.len (PyStr.strip "a b c") < 5.
Proof.
  apply (insufficient_data_exactly no_models "a b c" "Healthy/Low Risk"
           "System Default" 0%Q).
  vm_compute. reflexivity.
Defined.

(** ** The order of the layers *)

(** X4: the topic layer is entered only with a loaded topic model and no
    trigger in the text; the semantic layer only with a loaded encoder, no
    trigger in the text and a topic layer that, if loaded, gave nothing. *)
Theorem layers_in_order (env : Env) (text : string) :
  (In TopicLayer (consulted env text) ->
   keyword_scan KEYWORD_TO_CATEGORY (PyStr.lower text) = None
   /\ exists tm, topic_model env = Some tm)
  /\ (In SemanticLayer (consulted env text) ->
      keyword_scan KEYWORD_TO_CATEGORY (PyStr.lower text) = None
      /\ (forall tm, topic_model env = Some tm -> topic_layer tm text = Ok None)
      /\ exists em, embedding_model env = Some em).
Proof.
  pose proof (hybrid_detect_path env text) as P.
  remember (consulted env text) as seen eqn:Hs.
  remember (hybrid_detect env text) as res eqn:Hr.
  clear Hs Hr.
  destruct P as [G | val G K | tm r G K T L | tm e G K T L | em r G K T E S | G K T S].
  - split; intros [].
  - split; (intros [H | []]; discriminate).
  - split.
    + intros _. split; [exact K | now exists tm].
    + intros [H | [H | []]]; discriminate.
  - split.
    + intros _. split; [exact K | now exists tm].
    + intros [H | [H | []]]; discriminate.
  - split.
    + intros H. split; [exact K|].
      destruct (topic_model env) as [tm|]; [now exists tm|].
      cbn in H. destruct H as [H | [H | []]]; discriminate.
    + intros _. split; [exact K|]. split; [exact T | now exists em].
  - split.
    + intros H. split; [exact K|].
      destruct (topic_model env) as [tm|]; [now exists tm|].
      destruct (embedding_model env); cbn in H;
        repeat (destruct H as [H | H]; [discriminate|]); destruct H.
    + intros H. split; [exact K|]. split; [exact T|].
      destruct (embedding_model env) as [em|]; [now exists em|].
      destruct (topic_model env); cbn in H;
        repeat (destruct H as [H | H]; [discriminate|]); destruct H.
Qed.

(** ** The exceptions of the engine *)

Lemma topic_layer_raises (tm : TopicModel) (text : string) (e : exn) :
  topic_layer tm text = Raise e ->
  exists topics probs,
    transform tm [text] = (topics, probs)
    /\ ((e = IndexError /\ topics = [])
        \/ exists t rest cat,
             topics = t :: rest
             /\ PyDict.get Z.eqb TOPIC_MAPPING t = Some cat
             /\ ((e = IndexError /\ probs = Some [])
                 \/ (e = ValueError /\ exists rows, probs = Some (Vector [] :: rows)))).
Proof.
  unfold topic_layer.
  destruct (transform tm [text]) as [topics probs].
  intros H. exists topics, probs. split; [reflexivity|].
  destruct topics as [|t rest]; cbn [item0 bind] in H.
  - left. inversion H. split; reflexivity.
  - right. destruct (PyDict.get Z.eqb TOPIC_MAPPING t) as [cat|] eqn:Hm; [|discriminate].
    exists t, rest, cat. split; [reflexivity|]. split; [exact Hm|].
    destruct probs as [[|row rows]|]; cbn in H.
    + left. inversion H. split; reflexivity.
    + destruct row as [p|[|p ps]]; cbn in H; try discriminate.
      right. inversion H. split; [reflexivity | now exists rows].
    + discriminate.
Qed.

(** X5: the engine raises only out of the topic layer: the model is loaded,
    the text passed the first test and has no trigger, and either the list
    of topics is empty (IndexError), or the topic is mapped and the
    probabilities have no row (IndexError) or a first row that is an empty
    vector (ValueError). *)
Theorem hybrid_detect_raises (env : Env) (text : string) (e : exn) :
  hybrid_detect env text = Raise e ->
  passes_guard text
  /\ keyword_scan KEYWORD_TO_CATEGORY (PyStr.lower text) = None
  /\ exists tm topics probs,
       topic_model env = Some tm
       /\ transform tm [text] = (topics, probs)
       /\ ((e = IndexError /\ topics = [])
           \/ exists t rest cat,
                topics = t :: rest
                /\ PyDict.get Z.eqb TOPIC_MAPPING t = Some cat
                /\ ((e = IndexError /\ probs = Some [])
                    \/ (e = ValueError
                        /\ exists rows, probs = Some (Vector [] :: rows)))).
Proof.
  intros H. pose proof (hybrid_detect_path env text) as P. rewrite H in P.
  inversion P as [ | | | tm e' G K T L | | ]; subst.
  split; [exact G|]. split; [exact K|].
  destruct (topic_layer_raises tm text e L) as (topics & probs & Ht & Hcases).
  exists tm, topics, probs. split; [exact T|]. split; [exact Ht | exact Hcases].
Qed.

Lemma hybrid_detect_raises_witness :
  passes_guard "a normal day"
  /\ keyword_scan KEYWORD_TO_CATEGORY (PyStr.lower "a normal day") = None
  /\ exists tm topics probs,
       topic_model (topic_only 2 (Some [Vector []])) = Some tm
       /\ transform tm ["a normal day"] = (topics, probs)
       /\ ((ValueError = IndexError /\ topics = [])
           \/ exists t rest cat,
                topics = t :: rest
                /\ PyDict.get Z.eqb TOPIC_MAPPING t = Some cat
                /\ ((ValueError = IndexError /\ probs = Some [])
                    \/ (ValueError = ValueError
                        /\ exists rows, probs = Some (Vector [] :: rows)))).
Proof.
  apply (hybrid_detect_raises (topic_only 2 (Some [Vector []])) "a normal day" ValueError).
  vm_compute. reflexivity.
Defined.

(** X6: without a topic model the engine returns a result on every text,
    whatever the encoder and the similarity routine give. *)
Theorem no_topic_model_no_exception (env : Env) (text : string) :
  topic_model env = None -> exists r, hybrid_detect env text = Ok r.
Proof.
  intros T. apply hybrid_detect_returns.
  intros tm E. rewrite T in E. discriminate.
Qed.

Lemma no_topic_model_no_exception_witness :
  exists r, hybrid_detect (encoder_only 10) "a normal day" = Ok r.
Proof.
  apply (no_topic_model_no_exception (encoder_only 10) "a normal day").
  reflexivity.
Defined.

Lemma layers_in_order_witness :
  keyword_scan KEYWORD_TO_CATEGORY (PyStr.lower "a normal day") = None
  /\ (forall tm, topic_model (encoder_only 40) = Some tm ->
                 topic_layer tm "a normal day" = Ok None)
  /\ exists em, embedding_model (encoder_only 40) = Some em.
Proof.
  apply (proj2 (layers_in_order (encoder_only 40) "a normal day")).
  vm_compute. right. left. reflexivity.
Defined.

(** ** Texts inside texts *)

Lemma append_assoc (a b c : string) : (a ++ b) ++ c = a ++ b ++ c.
Proof. induction a as [|x a IH]; simpl; [reflexivity | now rewrite IH]. Qed.

Lemma append_empty_r (a : string) : a ++ EmptyString = a.
Proof. induction a as [|x a IH]; simpl; [reflexivity | now rewrite IH]. Qed.

Lemma length_append (a b : string) :
  String.length (a ++ b) = (String.length a + String.length b)%nat.
Proof. induction a as [|x a IH]; simpl; [reflexivity | now rewrite IH]. Qed.

Lemma lower_append (a b : string) : PyStr.lower (a ++ b) = PyStr.lower a ++ PyStr.lower b.
Proof. induction a as [|x a IH]; simpl; [reflexivity | now rewrite IH]. Qed.

Lemma contains_inside (key s a b : string) :
  PyStr.contains key s = true -> PyStr.contains key (a ++ s ++ b) = true.
Proof.
  rewrite !contains_occurs. intros (a' & b' & ->).
  exists (a ++ a'), (b' ++ b). now rewrite !append_assoc.
Qed.

(** A part of a joined text occurs in it. *)
Lemma join_part (sep s : string) (parts : list string) :
  In s parts -> exists a b, PyStr.join sep parts = a ++ s ++ b.
Proof.
  unfold PyStr.join. induction parts as [|x parts IH]; [intros []|].
  intros Hin. destruct parts as [|y parts].
  - destruct Hin as [-> | []]. exists EmptyString, EmptyString.
    cbn. now rewrite append_empty_r.
  - change (String.concat sep (x :: y :: parts))
      with (x ++ sep ++ String.concat sep (y :: parts)).
    destruct Hin as [-> | Hin].
    + exists EmptyString, (sep ++ String.concat sep (y :: parts)). reflexivity.
    + destruct (IH Hin) as (a & b & E). rewrite E.
      exists (x ++ sep ++ a), b. now rewrite !append_assoc.
Qed.

Lemma lstrip_tail (s : string) : exists ws, s = ws ++ PyStr.lstrip s.
Proof.
  induction s as [|c s (ws & IH)]; [now exists EmptyString|].
  cbn [PyStr.lstrip]. destruct (PyStr.is_space c).
  - exists (String c ws). cbn. now rewrite <- IH.
  - now exists EmptyString.
Qed.

Lemma lstrip_head (s r : string) (c : ascii) :
  PyStr.lstrip s = String c r -> PyStr.is_space c = false.
Proof.
  induction s as [|d s IH]; [discriminate|].
  cbn [PyStr.lstrip]. destruct (PyStr.is_space d) eqn:E; [exact IH|].
  intros [= <- <-]. exact E.
Qed.

Lemma rstrip_front (s : string) : exists ws, s = PyStr.rstrip s ++ ws.
Proof.
  induction s as [|c s (ws & IH)]; [now exists EmptyString|].
  cbn [PyStr.rstrip]. destruct (PyStr.rstrip s) as [|d r].
  - cbn in IH. destruct (PyStr.is_space c).
    + now exists (String c s).
    + exists s. reflexivity.
  - exists ws. cbn. now rewrite IH at 1.
Qed.

Lemma rstrip_last (s : string) :
  PyStr.rstrip s <> EmptyString ->
  exists x d, PyStr.rstrip s = x ++ String d EmptyString /\ PyStr.is_space d = false.
Proof.
  induction s as [|c s IH]; [cbn; congruence|].
  cbn [PyStr.rstrip]. destruct (PyStr.rstrip s) as [|d r].
  - destruct (PyStr.is_space c) eqn:E; [congruence|]. intros _.
    now exists EmptyString, c.
  - intros _. destruct IH as (x & d' & Hx & Hd); [discriminate|].
    exists (String c x), d'. cbn. now rewrite Hx.
Qed.

Lemma rstrip_keeps_head (s : string) (c : ascii) :
  PyStr.is_space c = false ->
  exists r, PyStr.rstrip (String c s) = String c r.
Proof.
  intros E. cbn [PyStr.rstrip]. destruct (PyStr.rstrip s) as [|d r]; rewrite ?E; eauto.
Qed.

Lemma lstrip_stops (u w : string) (c : ascii) :
  PyStr.is_space c = false ->
  exists u', PyStr.lstrip (u ++ String c w) = u' ++ String c w.
Proof.
  intros E. induction u as [|d u (u' & IH)].
  - exists EmptyString. cbn. now rewrite E.
  - cbn [append PyStr.lstrip]. destruct (PyStr.is_space d).
    + now exists u'.
    + now exists (String d u).
Qed.

Lemma rstrip_stops (x y : string) (d : ascii) :
  PyStr.is_space d = false ->
  exists y', PyStr.rstrip (x ++ String d y) = x ++ String d y'.
Proof.
  intros E. induction x as [|c x (y' & IH)].
  - cbn [append]. apply rstrip_keeps_head, E.
  - exists y'. cbn [append PyStr.rstrip]. rewrite IH.
    destruct (x ++ String d y') eqn:A; [|reflexivity].
    destruct x; discriminate.
Qed.

(** A text inside another strips to no more than the other does. *)
Lemma strip_inside (s a b : string) :
  PyStr.len (PyStr.strip s) <= PyStr.len (PyStr.strip (a ++ s ++ b)).
Proof.
  unfold PyStr.len. apply inj_le.
  destruct (PyStr.strip s) as [|c0 m0] eqn:M; [cbn; lia|].
  unfold PyStr.strip in *.
  destruct (lstrip_tail s) as (ws1 & Hs).
  destruct (rstrip_front (PyStr.lstrip s)) as (ws2 & Hl). rewrite M in Hl.
  destruct (rstrip_last (PyStr.lstrip s)) as (x & d & Hx & Hd); [rewrite M; discriminate|].
  rewrite M in Hx.
  assert (Hc : PyStr.is_space c0 = false).
  { apply (lstrip_head s (m0 ++ ws2)). rewrite Hl. reflexivity. }
  assert (F : a ++ s ++ b = (a ++ ws1) ++ String c0 (m0 ++ ws2 ++ b)).
  { rewrite Hs at 1. rewrite Hl.
    repeat (rewrite append_assoc || cbn [append]). reflexivity. }
  rewrite F.
  destruct (lstrip_stops (a ++ ws1) (m0 ++ ws2 ++ b) c0 Hc) as (u' & ->).
  assert (R : u' ++ String c0 (m0 ++ ws2 ++ b) = (u' ++ x) ++ String d (ws2 ++ b)).
  { change (String c0 (m0 ++ ws2 ++ b)) with (String c0 m0 ++ ws2 ++ b).
    rewrite Hx. repeat (rewrite append_assoc || cbn [append]). reflexivity. }
  rewrite R.
  destruct (rstrip_stops (u' ++ x) (ws2 ++ b) d Hd) as (y' & ->).
  rewrite Hx. rewrite !length_append. cbn [String.length]. lia.
Qed.

Lemma passes_guard_inside (s a b : string) :
  passes_guard s -> passes_guard (a ++ s ++ b).
Proof.
  intros [_ H]. pose proof (strip_inside s a b) as L. split; [|lia].
  intros E. rewrite E in L. cbn in L. lia.
Qed.

(** ** The triggers of Physical Abuse *)

Lemma physical_trigger_scan (s : string) :
  (exists k, In k physical_triggers /\ PyStr.contains k s = true) ->
  keyword_scan KEYWORD_TO_CATEGORY s = Some PhysicalAbuse.
Proof.
  intros (k & Hin & Hc). cbn [keyword_scan KEYWORD_TO_CATEGORY].
  destruct (PyStr.contains "hit" s) eqn:E1; [reflexivity|].
  destruct (PyStr.contains "slap" s) eqn:E2; [reflexivity|].
  destruct (PyStr.contains "punch" s) eqn:E3; [reflexivity|].
  destruct (PyStr.contains "kick" s) eqn:E4; [reflexivity|].
  destruct (PyStr.contains "weapon" s) eqn:E5; [reflexivity|].
  destruct (PyStr.contains "kill" s) eqn:E6; [reflexivity|].
  cbn in Hin. repeat (destruct Hin as [<- | Hin]; [congruence|]). destruct Hin.
Qed.

Lemma physical_trigger_result (env : Env) (text k : string) :
  passes_guard text ->
  In k physical_triggers ->
  PyStr.contains k (PyStr.lower text) = true ->
  hybrid_detect_run env text
  = ([KeywordLayer], Ok (PhysicalAbuse, "Manual Keyword Match", 1%Q)).
Proof.
  intros G Hin Hc. unfold hybrid_detect_run.
  rewrite (guard_false _ G), (physical_trigger_scan (PyStr.lower text)); [reflexivity|].
  now exists k.
Qed.

(** X7: a text that passes the first test and contains, in any case of the
    letters and at any place, one of hit, slap, punch, kick, weapon, kill is
    Physical Abuse by keyword with confidence 1.0, whatever other trigger it
    contains and whatever the models are. *)
Theorem physical_trigger_wins (env : Env) (text k : string) :
  passes_guard text ->
  In k physical_triggers ->
  PyStr.contains k (PyStr.lower text) = true ->
  hybrid_detect env text = Ok ("Physical Abuse", "Manual Keyword Match", 1%Q).
Proof.
  intros G Hin Hc. unfold hybrid_detect.
  now rewrite (physical_trigger_result env text k G Hin Hc).
Qed.

Lemma physical_trigger_wins_witness :
  hybrid_detect (topic_only 2 None) "A THREAT to Kill"
  = Ok ("Physical Abuse", "Manual Keyword Match", 1%Q).
Proof.
  apply (physical_trigger_wins (topic_only 2 None) "A THREAT to Kill" "kill").
  - split; [discriminate | vm_compute; discriminate].
  - cbn. tauto.
  - vm_compute. reflexivity.
Defined.

(** ** A trigger in one answer *)

Lemma trigger_inside (k s a b : string) :
  passes_guard s ->
  PyStr.contains k (PyStr.lower s) = true ->
  passes_guard (a ++ s ++ b)
  /\ PyStr.contains k (PyStr.lower (a ++ s ++ b)) = true.
Proof.
  intros G C. split; [now apply passes_guard_inside|].
  rewrite !lower_append. now apply contains_inside.
Qed.

Lemma trigger_in_section (k : string) (items : list AnswerItem) (it : AnswerItem) :
  In it items ->
  passes_guard (text it) ->
  PyStr.contains k (PyStr.lower (text it)) = true ->
  passes_guard (section_text_of items)
  /\ PyStr.contains k (PyStr.lower (section_text_of items)) = true.
Proof.
  intros Hin G C. unfold section_text_of.
  destruct (join_part " " (text it) (map text items)) as (a & b & ->).
  { now apply in_map. }
  now apply trigger_inside.
Qed.

Lemma answered_section (grouped_answers : GroupedAnswers) (name : string)
    (items : list AnswerItem) :
  In (name, items) grouped_answers -> items <> [] ->
  In (name, items) (answered grouped_answers).
Proof.
  intros Hin Hne. unfold answered. apply filter_In. split; [exact Hin|].
  destruct items; [congruence | reflexivity].
Qed.

(** X8: when an answer passes the first test on its own and contains a
    trigger of Physical Abuse, the entry of its section is Physical Abuse,
    Severe, red, with confidence 100.0%, whatever the weights, the other
    answers and the models are. *)
Theorem flagged_answer_section_severe (env : Env) (grouped_answers : GroupedAnswers)
    (resp : Response) (name : string) (items : list AnswerItem) (it : AnswerItem)
    (k : string) :
  NoDup (map fst grouped_answers) ->
  In (name, items) grouped_answers ->
  In it items ->
  passes_guard (text it) ->
  In k physical_triggers ->
  PyStr.contains k (PyStr.lower (text it)) = true ->
  analyze env grouped_answers = Ok resp ->
  PyDict.get String.eqb (breakdown resp) name
  = Some {| section_category := "Physical Abuse";
            section_risk := "Severe";
            section_color := "red";
            section_confidence := "100.0%" |}.
Proof.
  intros Hnd Hsec Hit G Hk C H.
  assert (Hne : items <> []) by (intros ->; destruct Hit).
  destruct (trigger_in_section k items it Hit G C) as [Gs Cs].
  destruct (analyze_answer env grouped_answers resp H)
    as (acc & _ & _ & _ & Hloop & _ & Hb & _).
  destruct (analyze_sections_entry env grouped_answers acc0 acc name items
              Hnd Hsec Hne Hloop) as (cat & m & conf & Hd & He).
  unfold hybrid_detect in Hd.
  rewrite (physical_trigger_result env (section_text_of items) k Gs Hk Cs) in Hd.
  inversion Hd; subst. rewrite Hb, He. reflexivity.
Qed.

Lemma flagged_answer_section_severe_witness :
  exists resp,
    analyze (encoder_only 10)
      [("S1", [item "fine" 0; item "he Kicked the door" (-4)]); ("S2", [item "all good" 9])]
      = Ok resp
    /\ PyDict.get String.eqb (breakdown resp) "S1"
       = Some {| section_category := "Physical Abuse";
                 section_risk := "Severe";
                 section_color := "red";
                 section_confidence := "100.0%" |}.
Proof.
  eexists. split; [vm_compute; reflexivity|].
  apply (flagged_answer_section_severe (encoder_only 10)
           [("S1", [item "fine" 0; item "he Kicked the door" (-4)]);
            ("S2", [item "all good" 9])]
           _ "S1" [item "fine" 0; item "he Kicked the door" (-4)]
           (item "he Kicked the door" (-4)) "kick").
  - repeat constructor; cbn; intuition discriminate.
  - left. reflexivity.
  - right. left. reflexivity.
  - split; [discriminate | vm_compute; discriminate].
  - cbn. tauto.
  - vm_compute. reflexivity.
  - vm_compute. reflexivity.
Defined.

(** X9: when an answer of any section passes the first test on its own and
    contains a trigger of Physical Abuse, the overall outcome is fixed:
    Physical Abuse, Severe, red, the advice of Physical Abuse, method Manual
    Keyword Match, confidence 100.0; the weights, the other answers and the
    models have no part in it. *)
Theorem flagged_answer_overall_severe (env : Env) (grouped_answers : GroupedAnswers)
    (resp : Response) (name : string) (items : list AnswerItem) (it : AnswerItem)
    (k : string) :
  In (name, items) grouped_answers ->
  In it items ->
  passes_guard (text it) ->
  In k physical_triggers ->
  PyStr.contains k (PyStr.lower (text it)) = true ->
  analyze env grouped_answers = Ok resp ->
  general resp
  = {| category := "Physical Abuse";
       risk := "Severe";
       color := "red";
       advice := "Go to a safe place immediately. Call 911.";
       method := "Manual Keyword Match";
       confidence := "100.0" |}.
Proof.
  intros Hsec Hit G Hk C H.
  assert (Hne : items <> []) by (intros ->; destruct Hit).
  destruct (trigger_in_section k items it Hit G C) as [Gs Cs].
  destruct (analyze_answer env grouped_answers resp H)
    as (acc & gen_cat & gen_method & gen_conf & Hloop & Hd & _ & Hg).
  destruct (analyze_sections_totals env grouped_answers acc0 acc Hloop) as [Ht _].
  cbn [acc0 all_sentences app] in Ht.
  destruct (join_part " " (section_text_of items) (all_sentences acc)) as (a & b & J).
  { rewrite Ht.
    apply (in_map (fun s => section_text_of (snd s)) _ (name, items)).
    now apply answered_section. }
  rewrite J in Hd.
  destruct (trigger_inside k (section_text_of items) a b Gs Cs) as [Gf Cf].
  unfold hybrid_detect in Hd.
  rewrite (physical_trigger_result env _ k Gf Hk Cf) in Hd.
  inversion Hd; subst. rewrite Hg. reflexivity.
Qed.

Lemma flagged_answer_overall_severe_witness :
  exists resp,
    analyze (encoder_only 10)
      [("S1", [item "fine" 0; item "he Kicked the door" (-4)]); ("S2", [item "all good" 9])]
      = Ok resp
    /\ general resp
       = {| category := "Physical Abuse";
            risk := "Severe";
            color := "red";
            advice := "Go to a safe place immediately. Call 911.";
            method := "Manual Keyword Match";
            confidence := "100.0" |}.
Proof.
  eexists. split; [vm_compute; reflexivity|].
  apply (flagged_answer_overall_severe (encoder_only 10)
           [("S1", [item "fine" 0; item "he Kicked the door" (-4)]);
            ("S2", [item "all good" 9])]
           _ "S1" [item "fine" 0; item "he Kicked the door" (-4)]
           (item "he Kicked the door" (-4)) "kick").
  - left. reflexivity.
  - right. left. reflexivity.
  - split; [discriminate | vm_compute; discriminate].
  - cbn. tauto.
  - vm_compute. reflexivity.
  - vm_compute. reflexivity.
Defined.

(** ** The shape of the answer *)

Lemma set_fresh (d : list (string * SectionOutcome)) (k : string) (v : SectionOutcome) :
  ~ In k (PyDict.keys d) -> PyDict.set String.eqb d k v = (d ++ [(k, v)])%list.
Proof.
  induction d as [|[k0 v0] d IH]; intros Hk; [reflexivity|].
  cbn [PyDict.set app]. cbn in Hk.
  destruct (String.eqb k0 k) eqn:E.
  - apply String.eqb_eq in E. subst. exfalso. apply Hk. now left.
  - rewrite IH; [reflexivity|]. intros Hin. apply Hk. now right.
Qed.

Lemma analyze_sections_keys (env : Env) (sections : GroupedAnswers) (acc acc' : Acc) :
  NoDup (map fst sections) ->
  (forall n, In n (map fst sections) -> ~ In n (PyDict.keys (acc_breakdown acc))) ->
  analyze_sections env acc sections = Ok acc' ->
  PyDict.keys (acc_breakdown acc')
  = (PyDict.keys (acc_breakdown acc) ++ map fst (answered sections))%list.
Proof.
  revert acc; induction sections as [|[n items] sections IH]; intros acc Hnd Hfresh.
  - cbn. intros [= <-]. now rewrite app_nil_r.
  - cbn [analyze_sections].
    destruct (analyze_section env acc (n, items)) as [acc1|e] eqn:S;
      cbn [bind]; [|discriminate].
    intros H. cbn [map fst] in Hnd. inversion Hnd as [|? ? Hn Hnd']; subst.
    destruct (analyze_section_step env acc acc1 n items S)
      as [[-> ->] | (Hne & cat & m & conf & _ & Hb & _)].
    + cbn [answered filter snd]. apply (IH acc Hnd'); [|exact H].
      intros n' Hin. apply Hfresh. now right.
    + destruct items as [|item items]; [congruence|].
      cbn [answered filter snd map fst].
      rewrite (IH acc1 Hnd'); [| |exact H].
      * rewrite Hb, set_fresh by (apply Hfresh; now left).
        unfold PyDict.keys. rewrite map_app. cbn [map fst].
        now rewrite <- app_assoc.
      * intros n' Hin. rewrite Hb, set_fresh by (apply Hfresh; now left).
        unfold PyDict.keys. rewrite map_app. cbn [map fst].
        intros Hk. apply in_app_or in Hk. destruct Hk as [Hk | [<- | []]].
        -- apply (Hfresh n'); [now right | exact Hk].
        -- contradiction.
Qed.

(** X10: when the names of the request are distinct, the keys of
    [breakdown] are the names of the sections that have answers, each once,
    in the order of the request. *)
Theorem breakdown_keys (env : Env) (grouped_answers : GroupedAnswers) (resp : Response) :
  NoDup (map fst grouped_answers) ->
  analyze env grouped_answers = Ok resp ->
  PyDict.keys (breakdown resp) = map fst (answered grouped_answers).
Proof.
  intros Hnd H.
  destruct (analyze_answer env grouped_answers resp H)
    as (acc & _ & _ & _ & Hloop & _ & -> & _).
  rewrite (analyze_sections_keys env grouped_answers acc0 acc Hnd); [reflexivity| |exact Hloop].
  intros n _ [].
Qed.

Lemma breakdown_keys_witness :
  exists resp,
    analyze no_models request_with_empty = Ok resp
    /\ PyDict.keys (breakdown resp) = ["S1"; "S3"].
Proof.
  eexists. split; [vm_compute; reflexivity|].
  apply (breakdown_keys no_models request_with_empty).
  - repeat constructor; cbn; intuition discriminate.
  - vm_compute. reflexivity.
Defined.

(** Every entry of [breakdown] has what every entry made from a result of
    the engine has. *)
Lemma analyze_sections_entries (env : Env) (P : SectionOutcome -> Prop)
    (sections : GroupedAnswers) (acc acc' : Acc) :
  (forall t cat m conf score,
      hybrid_detect env t = Ok (cat, m, conf) -> P (section_entry cat score conf)) ->
  Forall (fun e => P (snd e)) (acc_breakdown acc) ->
  analyze_sections env acc sections = Ok acc' ->
  Forall (fun e => P (snd e)) (acc_breakdown acc').
Proof.
  intros HP. revert acc; induction sections as [|[n items] sections IH]; intros acc Hacc.
  - cbn. now intros [= <-].
  - cbn [analyze_sections].
    destruct (analyze_section env acc (n, items)) as [acc1|e] eqn:S;
      cbn [bind]; [|discriminate].
    apply IH.
    destruct (analyze_section_step env acc acc1 n items S)
      as [[-> ->] | (_ & cat & m & conf & Hd & -> & _)]; [exact Hacc|].
    apply (set_entries String.eqb (acc_breakdown acc) n _ P); [|exact Hacc].
    exact (HP _ cat m conf _ Hd).
Qed.

Lemma section_risk_pair (cat : string) (score : Z) :
  In (section_risk_of cat score) risk_colors.
Proof.
  unfold section_risk_of, risk_colors.
  destruct (String.eqb cat "Physical Abuse"); [cbn; tauto|].
  destruct (6 <=? score); [cbn; tauto|].
  destruct (2 <=? score); cbn; tauto.
Qed.

Lemma general_risk_pair (cat : string) (total : Z) :
  In (general_risk_of cat total) risk_colors.
Proof.
  unfold general_risk_of, risk_colors.
  destruct (String.eqb cat "Physical Abuse"); [cbn; tauto|].
  destruct (10 <=? total); [cbn; tauto|].
  destruct (3 <=? total); cbn; tauto.
Qed.

(** X11: in every answer, overall and in each entry of [breakdown], the
    category is one of the five that the engine gives, and risk and colour
    go together: Low with green, Moderate with yellow, High with orange,
    Severe with red. *)
Theorem answer_well_formed (env : Env) (grouped_answers : GroupedAnswers)
    (resp : Response) :
  analyze env grouped_answers = Ok resp ->
  In (category (general resp)) result_categories
  /\ In (risk (general resp), color (general resp)) risk_colors
  /\ Forall (fun e =>
               In (section_category (snd e)) result_categories
               /\ In (section_risk (snd e), section_color (snd e)) risk_colors)
       (breakdown resp).
Proof.
  intros H.
  destruct (analyze_answer env grouped_answers resp H)
    as (acc & gen_cat & gen_method & gen_conf & Hloop & Hd & Hb & Hg).
  rewrite Hg, Hb. cbn [category method risk color].
  split; [exact (result_category_among env _ _ _ _ Hd)|].
  split.
  { rewrite <- surjective_pairing. apply general_risk_pair. }
  apply (analyze_sections_entries env
           (fun o => In (section_category o) result_categories
                     /\ In (section_risk o, section_color o) risk_colors)
           grouped_answers acc0 acc); [|constructor|exact Hloop].
  intros t cat m conf score D. unfold section_entry.
  pose proof (section_risk_pair cat score) as P.
  destruct (section_risk_of cat score) as [r c].
  cbn [section_category section_risk section_color].
  split; [exact (result_category_among env _ _ _ _ D) | exact P].
Qed.

Lemma answer_well_formed_witness :
  exists resp,
    analyze (encoder_only 10) request_two_sections = Ok resp
    /\ In (category (general resp)) result_categories
    /\ In (risk (general resp), color (general resp)) risk_colors
    /\ Forall (fun e =>
                 In (section_category (snd e)) result_categories
                 /\ In (section_risk (snd e), section_color (snd e)) risk_colors)
         (breakdown resp).
Proof.
  eexists. split; [vm_compute; reflexivity|].
  apply (answer_well_formed (encoder_only 10) request_two_sections).
  vm_compute. reflexivity.
Defined.

(** X12: the advice of an answer is the one that [CATEGORIES_ADVICE] has for
    the overall category; the text kept for a category without advice is
    never sent. *)
Theorem advice_always_found (env : Env) (grouped_answers : GroupedAnswers)
    (resp : Response) :
  analyze env grouped_answers = Ok resp ->
  In (category (general resp), advice (general resp)) CATEGORIES_ADVICE
  /\ advice (general resp) <> "No advice available.".
Proof.
  intros H.
  destruct (analyze_answer env grouped_answers resp H)
    as (acc & gen_cat & gen_method & gen_conf & _ & Hd & _ & Hg).
  rewrite Hg. cbn [category advice].
  pose proof (result_category_among env _ _ _ _ Hd) as C.
  cbn in C.
  repeat (destruct C as [<- | C]; [split; [cbn; tauto | discriminate]|]).
  destruct C.
Qed.

Lemma advice_always_found_witness :
  exists resp,
    analyze (topic_only 5 None) request_two_sections = Ok resp
    /\ In (category (general resp), advice (general resp)) CATEGORIES_ADVICE
    /\ advice (general resp) <> "No advice available.".
Proof.
  eexists. split; [vm_compute; reflexivity|].
  apply (advice_always_found (topic_only 5 None) request_two_sections).
  vm_compute. reflexivity.
Defined.

(** X13: a request in which no section has an answer, the empty request
    among them, is answered Healthy/Low Risk, Low, green, by Insufficient
    Data, with confidence 0.0 and an empty [breakdown], whatever the models
    are. *)
Theorem nothing_answered_answer (env : Env) (grouped_answers : GroupedAnswers) :
  nothing_answered grouped_answers ->
  analyze env grouped_answers
  = Ok {| general :=
            {| category := "Healthy/Low Risk"; risk := "Low"; color := "green";
               advice := "Maintain open communication.";
               method := "Insufficient Data"; confidence := "0.0" |};
          breakdown := [] |}.
Proof.
  intros Hall.
  assert (L : forall acc, analyze_sections env acc grouped_answers = Ok acc).
  { induction grouped_answers as [|[n items] sections IH]; intros acc; [reflexivity|].
    rewrite (Hall n items) by now left.
    cbn. apply IH. intros n' its Hin. apply (Hall n' its). now right. }
  unfold analyze. rewrite L. reflexivity.
Qed.

Lemma nothing_answered_answer_witness :
  analyze (encoder_only 10) [("S1", []); ("S2", [])]
  = Ok {| general :=
            {| category := "Healthy/Low Risk"; risk := "Low"; color := "green";
               advice := "Maintain open communication.";
               method := "Insufficient Data"; confidence := "0.0" |};
          breakdown := [] |}.
Proof.
  apply (nothing_answered_answer (encoder_only 10) [("S1", []); ("S2", [])]).
  intros n items [H | [H | []]]; now inversion H.
Defined.

(** ** The two risk policies *)

Lemma general_below_section (cat : string) (s : Z) :
  risk_rank (fst (general_risk_of cat s)) <= risk_rank (fst (section_risk_of cat s)).
Proof.
  unfold section_risk_of, general_risk_of.
  destruct (String.eqb cat "Physical Abuse"); [cbn; lia|].
  destruct (6 <=? s) eqn:A; destruct (2 <=? s) eqn:B;
  destruct (10 <=? s) eqn:C; destruct (3 <=? s) eqn:D;
  cbn; try lia;
  repeat match goal with
         | E : (_ <=? _) = true |- _ => apply Z.leb_le in E
         | E : (_ <=? _) = false |- _ => apply Z.leb_gt in E
         end; lia.
Qed.

(** X14: with the category fixed, a greater sum of weights never gives a
    lower risk, per section and overall; and on the same sum the overall
    policy never gives a higher risk than the policy of a section. *)
Theorem risk_policies_monotone (cat : string) (s1 s2 : Z) :
  s1 <= s2 ->
  risk_rank (fst (section_risk_of cat s1)) <= risk_rank (fst (section_risk_of cat s2))
  /\ risk_rank (fst (general_risk_of cat s1)) <= risk_rank (fst (general_risk_of cat s2))
  /\ risk_rank (fst (general_risk_of cat s1)) <= risk_rank (fst (section_risk_of cat s1)).
Proof.
  intros H. unfold section_risk_of, general_risk_of.
  destruct (String.eqb cat "Physical Abuse"); [cbn; lia|].
  destruct (6 <=? s1) eqn:A1; destruct (6 <=? s2) eqn:A2;
  destruct (2 <=? s1) eqn:B1; destruct (2 <=? s2) eqn:B2;
  destruct (10 <=? s1) eqn:C1; destruct (10 <=? s2) eqn:C2;
  destruct (3 <=? s1) eqn:D1; destruct (3 <=? s2) eqn:D2;
  cbn; try lia;
  repeat match goal with
         | E : (_ <=? _) = true |- _ => apply Z.leb_le in E
         | E : (_ <=? _) = false |- _ => apply Z.leb_gt in E
         end; lia.
Qed.

Lemma risk_policies_monotone_witness :
  risk_rank (fst (section_risk_of "Healthy/Low Risk" 2))
    <= risk_rank (fst (section_risk_of "Healthy/Low Risk" 7))
  /\ risk_rank (fst (general_risk_of "Healthy/Low Risk" 2))
       <= risk_rank (fst (general_risk_of "Healthy/Low Risk" 7))
  /\ risk_rank (fst (general_risk_of "Healthy/Low Risk" 2))
       <= risk_rank (fst (section_risk_of "Healthy/Low Risk" 2)).
Proof.
  apply (risk_policies_monotone "Healthy/Low Risk" 2 7). lia.
Defined.

(** X15: when the request has one section and the section has answers, the
    overall category, method and confidence are those of the section, and
    the overall risk is never above the risk of the section. *)
Theorem single_section_overall (env : Env) (name : string) (items : list AnswerItem)
    (resp : Response) :
  items <> [] ->
  analyze env [(name, items)] = Ok resp ->
  exists entry,
    breakdown resp = [(name, entry)]
    /\ category (general resp) = section_category entry
    /\ confidence (general resp) ++ "%" = section_confidence entry
    /\ risk_rank (risk (general resp)) <= risk_rank (section_risk entry).
Proof.
  intros Hne H.
  destruct (analyze_answer env _ resp H)
    as (acc & gen_cat & gen_method & gen_conf & Hloop & Hd & Hb & Hg).
  cbn [analyze_sections] in Hloop.
  rewrite analyze_section_answered in Hloop by exact Hne.
  destruct (hybrid_detect env (section_text_of items)) as [[[cat m] conf]|e] eqn:D;
    cbn [bind] in Hloop; [|discriminate].
  inversion Hloop; subst acc. clear Hloop.
  cbn [all_sentences acc0 app total_risk_score acc_breakdown PyDict.set] in *.
  change (PyStr.join " " [section_text_of items]) with (section_text_of items) in Hd.
  rewrite D in Hd. inversion Hd; subst.
  exists (section_entry gen_cat (section_score_of items) gen_conf).
  split; [exact Hb|]. rewrite Hg. cbn [category confidence risk].
  change (0 + section_score_of items) with (section_score_of items).
  unfold section_entry.
  pose proof (general_below_section gen_cat (section_score_of items)) as M.
  destruct (section_risk_of gen_cat (section_score_of items)) as [r c].
  cbn [section_category section_confidence section_risk fst] in *.
  split; [reflexivity|]. split; [reflexivity | exact M].
Qed.

Lemma single_section_overall_witness :
  exists resp entry,
    analyze no_models [("S1", [item "normal day" 3; item "went to work" 4])] = Ok resp
    /\ breakdown resp = [("S1", entry)]
    /\ category (general resp) = section_category entry
    /\ confidence (general resp) ++ "%" = section_confidence entry
    /\ risk_rank (risk (general resp)) <= risk_rank (section_risk entry).
Proof.
  eexists.
  destruct (single_section_overall no_models "S1"
              [item "normal day" 3; item "went to work" 4] _
              ltac:(discriminate) ltac:(vm_compute; reflexivity)) as (entry & P).
  exists entry. split; [reflexivity | exact P].
Defined.

(** A sum of 7 in one section: High for the section, Moderate overall. *)
Example single_section_high_overall_moderate :
  exists resp,
    analyze no_models [("S1", [item "normal day" 3; item "went to work" 4])] = Ok resp
    /\ map (fun e => section_risk (snd e)) (breakdown resp) = ["High"]
    /\ risk (general resp) = "Moderate".
Proof. eexists. repeat split; vm_compute; reflexivity. Qed.

(** ** Ties in the semantic layer *)

(** The loop keeps the first category, in the order of the anchors, that
    reaches the final score. *)
Lemma semantic_scan_first (sim : list Q -> Q)
    (anchors : list (string * list (list Q))) (b : string) (h : Q) :
  Forall (fun entry => snd entry <> []) anchors ->
  exists b' h',
    semantic_scan sim anchors (b, h) = Ok (b', h')
    /\ (((b', h') = (b, h)
         /\ forall c e s, In (c, e) anchors -> In s (map sim e) -> (s <= h)%Q)
        \/ ((h < h')%Q
            /\ exists before embs after,
                 anchors = (before ++ (b', embs) :: after)%list
                 /\ is_max h' (map sim embs)
                 /\ (forall c e s, In (c, e) before -> In s (map sim e) -> (s < h')%Q)
                 /\ (forall c e s, In (c, e) after -> In s (map sim e) -> (s <= h')%Q))).
Proof.
  intros Hne. revert b h.
  induction Hne as [|[cat embs] rest Hembs Hrest IH]; intros b h.
  - exists b, h. split; [reflexivity|]. left. split; [reflexivity|]. intros c e s [].
  - simpl in Hembs.
    destruct (tensor_max_is_max (map sim embs)) as (score & Hscore & Hmax).
    { destruct embs; [congruence | discriminate]. }
    cbn [semantic_scan]. rewrite Hscore. cbn [bind snd].
    destruct (PyNum.Qlt_bool h score) eqn:E.
    + apply Qlt_bool_iff in E.
      destruct (IH cat score) as (b' & h' & Hrun & [[Heq Hall] | (Hlt & pre & embs' & post & -> & M & Hpre & Hpost)]).
      * inversion Heq; subst. exists cat, score. split; [exact Hrun|]. right.
        split; [exact E|]. exists [], embs, rest.
        split; [reflexivity|]. split; [exact Hmax|].
        split; [intros c e s []| exact Hall].
      * exists b', h'. split; [exact Hrun|]. right.
        split; [now apply Qlt_trans with score|].
        exists ((cat, embs) :: pre), embs', post.
        split; [reflexivity|]. split; [exact M|]. split; [|exact Hpost].
        intros c e s [Heq | Hin] Hs; [|now apply (Hpre c e)].
        inversion Heq; subst. apply Qle_lt_trans with score; [|exact Hlt].
        now apply Hmax.
    + apply Qlt_bool_false in E.
      destruct (IH b h) as (b' & h' & Hrun & [[Heq Hall] | (Hlt & pre & embs' & post & -> & M & Hpre & Hpost)]).
      * exists b', h'. split; [exact Hrun|]. left. split; [exact Heq|].
        intros c e s [Hc | Hin] Hs; [|now apply (Hall c e)].
        inversion Hc; subst. apply Qle_trans with score; [|exact E]. now apply Hmax.
      * exists b', h'. split; [exact Hrun|]. right. split; [exact Hlt|].
        exists ((cat, embs) :: pre), embs', post.
        split; [reflexivity|]. split; [exact M|]. split; [|exact Hpost].
        intros c e s [Heq | Hin] Hs; [|now apply (Hpre c e)].
        inversion Heq; subst. apply Qle_lt_trans with h; [|exact Hlt].
        apply Qle_trans with score; [|exact E]. now apply Hmax.
Qed.

(** X16: a result by AI Semantic Similarity comes from a loaded encoder; its
    confidence is above 0.35 and is the greatest similarity of the anchors
    of its category; every anchor of a category placed earlier in
    [ANCHOR_SENTENCES] is strictly less similar, and no anchor of a later
    category is more similar: on a tie the earlier category wins. *)
Theorem semantic_result_first_best (env : Env) (text cat : string) (conf : Q) :
  hybrid_detect env text = Ok (cat, "AI Semantic Similarity", conf) ->
  exists em before embs after,
    embedding_model env = Some em
    /\ (35 # 100 < conf)%Q
    /\ ANCHOR_EMBEDDINGS em = (before ++ (cat, embs) :: after)%list
    /\ is_max conf (map (cos_sim env (encode em text)) embs)
    /\ (forall c e s, In (c, e) before ->
                      In s (map (cos_sim env (encode em text)) e) -> (s < conf)%Q)
    /\ (forall c e s, In (c, e) after ->
                      In s (map (cos_sim env (encode em text)) e) -> (s <= conf)%Q).
Proof.
  intros H. pose proof (hybrid_detect_path env text) as P. rewrite H in P.
  inversion P as [ | | tm r G K T L | | em r G K T E S | ]; subst.
  - destruct (topic_layer_answer tm text _ _ _ L) as (t & _ & _ & _ & _ & Hm & _).
    discriminate.
  - exists em.
    destruct (semantic_scan_first (cos_sim env (encode em text)) (ANCHOR_EMBEDDINGS em)
                NeutralUnclassified 0%Q (anchors_nonempty em))
      as (b' & h' & Hrun & Hcases).
    unfold semantic_layer in S. rewrite Hrun in S. cbn [bind] in S.
    destruct (PyNum.Qlt_bool (35 # 100) h') eqn:Q; [|discriminate].
    inversion S; subst. apply Qlt_bool_iff in Q.
    destruct Hcases as [[Heq _] | (_ & pre & embs & post & A & M & Hpre & Hpost)].
    + inversion Heq; subst. exfalso. revert Q. vm_compute. discriminate.
    + exists pre, embs, post. repeat (split; [assumption|]). assumption.
Qed.

Lemma semantic_result_first_best_witness :
  exists em before embs after,
    embedding_model (encoder_only 10) = Some em
    /\ (35 # 100 < 336 # 100)%Q
    /\ ANCHOR_EMBEDDINGS em
       = (before ++ ("Verbal & Emotional Abuse", embs) :: after)%list
    /\ is_max (336 # 100) (map (cos_sim (encoder_only 10) (encode em "a normal day")) embs)
    /\ (forall c e s, In (c, e) before ->
                      In s (map (cos_sim (encoder_only 10) (encode em "a normal day")) e) ->
                      (s < 336 # 100)%Q)
    /\ (forall c e s, In (c, e) after ->
                      In s (map (cos_sim (encoder_only 10) (encode em "a normal day")) e) ->
                      (s <= 336 # 100)%Q).
Proof.
  apply (semantic_result_first_best (encoder_only 10) "a normal day"
           "Verbal & Emotional Abuse" (336 # 100)).
  vm_compute. reflexivity.
Defined.

(** ** The errors of [analyze] *)




(** ** The overall outcome and the grouping of the answers *)

Lemma join_app (sep : string) (xs ys : list string) :
  xs <> [] -> ys <> [] ->
  PyStr.join sep (xs ++ ys)%list = PyStr.join sep xs ++ sep ++ PyStr.join sep ys.
Proof.
  unfold PyStr.join. intros Hx Hy.
  induction xs as [|x xs IH]; [congruence|].
  destruct xs as [|x' xs].
  - cbn [app]. destruct ys as [|y ys]; [congruence | reflexivity].
  - change (String.concat sep ((x :: x' :: xs) ++ ys)%list)
      with (x ++ sep ++ String.concat sep ((x' :: xs) ++ ys)%list).
    rewrite IH by discriminate.
    change (String.concat sep (x :: x' :: xs))
      with (x ++ sep ++ String.concat sep (x' :: xs)).
    now rewrite !append_assoc.
Qed.

Lemma join_flatten (sep : string) (xss : list (list string)) :
  Forall (fun xs => xs <> []) xss ->
  PyStr.join sep (map (PyStr.join sep) xss) = PyStr.join sep (concat xss).
Proof.
  induction 1 as [|xs rest Hxs Hrest IH]; [reflexivity|].
  destruct rest as [|ys rest].
  - cbn [map concat]. now rewrite app_nil_r.
  - change (concat (xs :: ys :: rest)) with (xs ++ concat (ys :: rest))%list.
    rewrite join_app; [|exact Hxs|].
    + rewrite <- IH. reflexivity.
    + inversion Hrest; subst. cbn [concat]. destruct ys; [congruence | discriminate].
Qed.

Lemma answered_items (sections : GroupedAnswers) :
  concat (map snd (answered sections)) = flat_map snd sections.
Proof.
  induction sections as [|[n items] sections IH]; [reflexivity|].
  cbn [answered filter snd flat_map]. destruct items as [|it items].
  - exact IH.
  - cbn [map concat snd]. fold (answered sections). now rewrite IH.
Qed.

Lemma total_of_app (xs ys : list Z) : total_of (xs ++ ys) = total_of xs + total_of ys.
Proof.
  unfold total_of. induction xs as [|x xs IH]; cbn [app fold_right]; [lia | rewrite IH; lia].
Qed.

(** After the loop, the joined text is made of the texts of all the answers,
    in order, with one space between two of them, and the total is the sum
    of all the weights. *)
Lemma analyze_sections_flat (env : Env) (sections : GroupedAnswers) (acc : Acc) :
  analyze_sections env acc0 sections = Ok acc ->
  PyStr.join " " (all_sentences acc) = PyStr.join " " (map text (flat_map snd sections))
  /\ total_risk_score acc = total_of (map weight (flat_map snd sections)).
Proof.
  intros H. destruct (analyze_sections_totals env sections acc0 acc H) as [Ht Hs].
  cbn [acc0 all_sentences total_risk_score app] in Ht, Hs. split.
  - rewrite Ht, <- answered_items, concat_map, map_map.
    rewrite <- join_flatten.
    + now rewrite map_map.
    + apply Forall_forall. intros xs Hin. apply in_map_iff in Hin.
      destruct Hin as ([n items] & <- & Hin). unfold answered in Hin.
      apply filter_In in Hin. destruct Hin as [_ Hne]. cbn [snd] in *.
      destruct items; [discriminate | discriminate].
  - rewrite Hs, Z.add_0_l. clear.
    induction sections as [|[n items] sections IH]; [reflexivity|].
    cbn [map snd flat_map]. rewrite map_app, total_of_app, <- IH.
    unfold total_of at 1. cbn [fold_right]. unfold section_score_of.
    rewrite py_sum_total. reflexivity.
Qed.



(** ** Saving the assessment *)

(** X19: the answer of the route is that of the analysis, whatever the
    store does; an error answer saves nothing; and the values offered to the
    store after a success are the overall risk and category of the answer,
    its overall confidence followed by the percent sign, and the serialised
    answer. *)
Theorem saved_values_follow_answer {Store : Type} (env : Env) (now : string)
    (dumps : Response -> string) (insert : AssessmentValues -> Store -> outcome Store)
    (store : Store) (grouped_answers : GroupedAnswers) :
  fst (analyze_route env now dumps insert store grouped_answers)
    = analyze env grouped_answers
  /\ (forall e, analyze env grouped_answers = Raise e ->
                snd (analyze_route env now dumps insert store grouped_answers) = store)
  /\ (forall resp, analyze env grouped_answers = Ok resp ->
        let val :=
          {| saved_timestamp := now;
             saved_risk_level := risk (general resp);
             saved_main_category := category (general resp);
             saved_confidence := confidence (general resp) ++ "%";
             saved_full_report := dumps resp |} in
        snd (analyze_route env now dumps insert store grouped_answers)
        = match insert val store with
          | Ok store' => store'
          | Raise _ => store
          end).
Proof.
  unfold analyze_route, analyze.
  destruct (analyze_sections env acc0 grouped_answers) as [acc|e]; cbn [bind].
  - unfold general_analysis_saved, general_analysis.
    destruct (hybrid_detect env (PyStr.join " " (all_sentences acc)))
      as [[[gen_cat gen_method] gen_conf]|e]; cbn [bind].
    + destruct (general_risk_of gen_cat (total_risk_score acc)) as [gen_risk gen_color].
      cbn [fst snd]. split; [reflexivity|]. split; [discriminate|].
      intros resp [= <-]. reflexivity.
    + cbn [fst snd]. split; [reflexivity|]. split; [reflexivity | discriminate].
  - cbn [fst snd]. split; [reflexivity|]. split; [reflexivity | discriminate].
Qed.

(** The same answer with a store that keeps the row and with a store out of
    reach. *)
Example saved_row_run :
  analyze_route no_models "2024-01-01 10:00:00" (fun _ => "{}") insert_row [] request_hit
  = (analyze no_models request_hit,
     [ {| saved_timestamp := "2024-01-01 10:00:00";
          saved_risk_level := "Severe";
          saved_main_category := "Physical Abuse";
          saved_confidence := "100.0%";
          saved_full_report := "{}" |} ]).
Proof. vm_compute. reflexivity. Qed.

Example store_out_of_reach_run :
  analyze_route no_models "2024-01-01 10:00:00" (fun _ => "{}") insert_fails [] request_hit
  = (analyze no_models request_hit, []).
Proof. vm_compute. reflexivity. Qed.

(** ** Joining the answers makes no trigger *)

Lemma spaceless_tail (c : ascii) (k : string) : spaceless (String c k) -> spaceless k.
Proof.
  intros H a b E. apply (H (String c a) b). cbn. now rewrite E.
Qed.

Lemma spaceless_head (c : ascii) (k : string) : spaceless (String c k) -> c <> " "%char.
Proof.
  intros H E. apply (H EmptyString k). cbn. now rewrite E.
Qed.

(** A text without space that starts before a space ends before it. *)
Lemma prefix_before_space (k q a b : string) :
  spaceless k -> k ++ q = a ++ String " " b -> exists r, a = k ++ r.
Proof.
  revert a; induction k as [|c k IH]; intros a Hk E; [now exists a|].
  destruct a as [|x a]; cbn in E.
  - inversion E; subst. exfalso. now apply (spaceless_head _ _ Hk).
  - inversion E; subst. destruct (IH a (spaceless_tail _ _ Hk) H1) as (r & ->).
    now exists r.
Qed.

Lemma contains_across_space (k a b : string) :
  spaceless k ->
  PyStr.contains k (a ++ String " " b) = true ->
  PyStr.contains k a = true \/ PyStr.contains k b = true.
Proof.
  intros Hk. rewrite !contains_occurs. intros (p & q & E).
  revert p E. induction a as [|x a IH]; intros p E.
  - cbn in E. destruct p as [|c p]; cbn in E.
    + destruct (prefix_before_space k q EmptyString b Hk) as (r & Hr); [exact (eq_sym E)|].
      left. exists EmptyString, EmptyString. cbn. rewrite append_empty_r.
      destruct k; [reflexivity | discriminate].
    + inversion E; subst. right. now exists p, q.
  - destruct p as [|c p]; cbn in E.
    + destruct (prefix_before_space k q (String x a) b Hk) as (r & Hr); [exact (eq_sym E)|].
      left. exists EmptyString, r. exact Hr.
    + inversion E; subst.
      destruct (IH p H1) as [(a1 & b1 & ->) | R]; [|now right].
      left. exists (String c a1), b1. reflexivity.
Qed.

Lemma contains_in_join (k : string) (parts : list string) :
  spaceless k -> k <> EmptyString ->
  PyStr.contains k (PyStr.join " " parts) = true ->
  exists p, In p parts /\ PyStr.contains k p = true.
Proof.
  intros Hk Hne. unfold PyStr.join.
  induction parts as [|x parts IH].
  - cbn. destruct k; [congruence | discriminate].
  - destruct parts as [|y parts].
    + cbn [String.concat]. intros H. exists x. split; [now left | exact H].
    + change (String.concat " " (x :: y :: parts))
        with (x ++ String " " (String.concat " " (y :: parts))).
      intros H. destruct (contains_across_space k x _ Hk H) as [Hx | Hr].
      * exists x. split; [now left | exact Hx].
      * destruct (IH Hr) as (p & Hin & Hp). exists p. split; [now right | exact Hp].
Qed.

Lemma lower_join (parts : list string) :
  PyStr.lower (PyStr.join " " parts) = PyStr.join " " (map PyStr.lower parts).
Proof.
  unfold PyStr.join. induction parts as [|x parts IH]; [reflexivity|].
  destruct parts as [|y parts]; [reflexivity|].
  change (String.concat " " (x :: y :: parts))
    with (x ++ String " " (String.concat " " (y :: parts))).
  rewrite lower_append. cbn [PyStr.lower]. rewrite IH. reflexivity.
Qed.

Lemma triggers_spaceless (k v : string) :
  In (k, v) KEYWORD_TO_CATEGORY -> spaceless k /\ k <> EmptyString.
Proof.
  assert (S : forall s : string,
             (fix no_space (t : string) : bool :=
                match t with
                | EmptyString => true
                | String c r => negb (Ascii.eqb c " ") && no_space r
                end) s = true -> spaceless s).
  { induction s as [|c s IH]; intros H a b E.
    - destruct a; discriminate.
    - apply andb_true_iff in H. destruct H as [Hc Hs].
      destruct a as [|x a]; cbn in E; inversion E; subst.
      + cbn in Hc. discriminate.
      + now apply (IH Hs a b). }
  cbn. intros H.
  repeat (destruct H as [H | H];
          [inversion H; subst; split; [apply S; reflexivity | discriminate]|]).
  destruct H.
Qed.

(** X20: the keyword layer finds a trigger in answers joined by spaces
    exactly when it finds one in some answer: joining makes no trigger and
    hides none. *)
Theorem join_makes_no_trigger (parts : list string) :
  keyword_scan KEYWORD_TO_CATEGORY (PyStr.lower (PyStr.join " " parts)) = None
  <-> forall p, In p parts -> keyword_scan KEYWORD_TO_CATEGORY (PyStr.lower p) = None.
Proof.
  rewrite keyword_scan_none. split.
  - intros H p Hin. apply keyword_scan_none. intros k v Hk.
    destruct (PyStr.contains k (PyStr.lower p)) eqn:C; [|reflexivity].
    rewrite <- (H k v Hk). symmetry.
    destruct (join_part " " p parts Hin) as (a & b & ->).
    rewrite !lower_append. now apply contains_inside.
  - intros H k v Hk.
    destruct (PyStr.contains k (PyStr.lower (PyStr.join " " parts))) eqn:C; [|reflexivity].
    rewrite lower_join in C.
    destruct (triggers_spaceless k v Hk) as [Hs Hne].
    destruct (contains_in_join k (map PyStr.lower parts) Hs Hne C) as (p' & Hin & Hp).
    apply in_map_iff in Hin. destruct Hin as (p & <- & Hin).
    specialize (H p Hin). rewrite keyword_scan_none in H.
    rewrite (H k v Hk) in Hp. discriminate.
Qed.

(** X21: when the overall method of an answer is Manual Keyword Match, some
    answer of the request contains a trigger. *)
Theorem overall_keyword_from_answer (env : Env) (grouped_answers : GroupedAnswers)
    (resp : Response) :
  analyze env grouped_answers = Ok resp ->
  method (general resp) = "Manual Keyword Match" ->
  exists name items it key val,
    In (name, items) grouped_answers
    /\ In it items
    /\ In (key, val) KEYWORD_TO_CATEGORY
    /\ PyStr.contains key (PyStr.lower (text it)) = true.
Proof.
  intros H Hm.
  destruct (analyze_answer env grouped_answers resp H)
    as (acc & gen_cat & gen_method & gen_conf & Hloop & Hd & _ & Hg).
  rewrite Hg in Hm. cbn [method] in Hm. subst gen_method.
  destruct (analyze_sections_flat env grouped_answers acc Hloop) as [Ht _].
  rewrite Ht in Hd.
  pose proof (hybrid_detect_path env
                (PyStr.join " " (map text (flat_map snd grouped_answers)))) as P.
  rewrite Hd in P.
  inversion P as [ | val G K | tm r G K T L | | em r G K T E S | ]; subst.
  - destruct (keyword_scan_value _ _ _ K) as (key & Hk & Hc).
    rewrite lower_join in Hc.
    destruct (triggers_spaceless key gen_cat Hk) as [Hs Hne].
    destruct (contains_in_join key _ Hs Hne Hc) as (p & Hin & Hp).
    apply in_map_iff in Hin. destruct Hin as (t & <- & Hin).
    apply in_map_iff in Hin. destruct Hin as (it & <- & Hin).
    apply in_flat_map in Hin. destruct Hin as ([name items] & Hsec & Hit).
    exists name, items, it, key, gen_cat. repeat (split; [assumption|]). exact Hp.
  - destruct (topic_layer_answer tm _ _ _ _ L) as (t & _ & _ & _ & _ & Hm & _).
    discriminate.
  - destruct (semantic_layer_answer env em _ _ _ _ S) as (Hm & _). discriminate.
Qed.

Lemma overall_keyword_from_answer_witness :
  exists name items it key val,
    In (name, items) request_hit
    /\ In it items
    /\ In (key, val) KEYWORD_TO_CATEGORY
    /\ PyStr.contains key (PyStr.lower (text it)) = true.
Proof.
  apply (overall_keyword_from_answer (encoder_only 10) request_hit
           {| general :=
                {| category := "Physical Abuse"; risk := "Severe"; color := "red";
                   advice := "Go to a safe place immediately. Call 911.";
                   method := "Manual Keyword Match"; confidence := "100.0" |};
              breakdown :=
                [("Section A",
                  {| section_category := "Physical Abuse"; section_risk := "Severe";
                     section_color := "red"; section_confidence := "100.0%" |})] |}).
  - vm_compute. reflexivity.
  - reflexivity.
Defined.

(** ** One section at a time *)

(** X22: the entry of a section depends on its own answers only: the same
    answers get the same entry in any two requests, under any names and
    beside any other sections. *)
Theorem section_entry_is_local (env : Env) (r1 r2 : GroupedAnswers)
    (resp1 resp2 : Response) (n1 n2 : string) (items : list AnswerItem) :
  NoDup (map fst r1) -> NoDup (map fst r2) ->
  In (n1, items) r1 -> In (n2, items) r2 ->
  items <> [] ->
  analyze env r1 = Ok resp1 ->
  analyze env r2 = Ok resp2 ->
  exists entry,
    PyDict.get String.eqb (breakdown resp1) n1 = Some entry
    /\ PyDict.get String.eqb (breakdown resp2) n2 = Some entry.
Proof.
  intros D1 D2 I1 I2 Hne H1 H2.
  destruct (analyze_answer env r1 resp1 H1) as (a1 & _ & _ & _ & L1 & _ & -> & _).
  destruct (analyze_answer env r2 resp2 H2) as (a2 & _ & _ & _ & L2 & _ & -> & _).
  destruct (analyze_sections_entry env r1 acc0 a1 n1 items D1 I1 Hne L1)
    as (c1 & m1 & q1 & E1 & G1).
  destruct (analyze_sections_entry env r2 acc0 a2 n2 items D2 I2 Hne L2)
    as (c2 & m2 & q2 & E2 & G2).
  rewrite E1 in E2. inversion E2; subst.
  eexists. split; [exact G1 | exact G2].
Qed.

Lemma section_entry_is_local_witness :
  exists resp1 resp2 entry,
    analyze (encoder_only 10) request_two_sections = Ok resp1
    /\ analyze (encoder_only 10)
         [("Only", [item "normal day" 1; item "went to work" 2])] = Ok resp2
    /\ PyDict.get String.eqb (breakdown resp1) "S1" = Some entry
    /\ PyDict.get String.eqb (breakdown resp2) "Only" = Some entry.
Proof.
  eexists. eexists.
  destruct (section_entry_is_local (encoder_only 10) request_two_sections
              [("Only", [item "normal day" 1; item "went to work" 2])] _ _
              "S1" "Only" [item "normal day" 1; item "went to work" 2]
              ltac:(repeat constructor; cbn; intuition discriminate)
              ltac:(repeat constructor; cbn; intuition discriminate)
              ltac:(left; reflexivity) ltac:(left; reflexivity)
              ltac:(discriminate)
              ltac:(vm_compute; reflexivity) ltac:(vm_compute; reflexivity))
    as (entry & G1 & G2).
  exists entry. repeat split; assumption.
Defined.

(** Two answers too short to be classified on their own: no section is
    flagged, and the joined text is. *)
Example short_answers_flagged_overall :
  exists resp,
    analyze no_models [("S1", [item "hit" 0]); ("S2", [item "ok" 0])] = Ok resp
    /\ map (fun e => section_category (snd e)) (breakdown resp)
       = ["Healthy/Low Risk"; "Healthy/Low Risk"]
    /\ (category (general resp), risk (general resp)) = ("Physical Abuse", "Severe").
Proof. eexists. repeat split; vm_compute; reflexivity. Qed.
